(** * Ward Manager backend: configuration, connection wrappers and HTTP shell

    A shallow embedding of the TypeScript sources under [backend/src]
    ([config/index.ts], [config/database.ts], [config/redis.ts], [app.ts])
    together with the properties stated about them.

    Layout: part I holds the definitions (JavaScript primitives, the
    configuration loader, the effect monad, the two connection wrappers,
    the Express application, the designed session manager); part II holds
    the lemmas and theorems. *)

From Stdlib Require Import ZArith QArith String Ascii List Bool Lia.
From stdpp Require Import gmap strings.

Import ListNotations.
Local Open Scope string_scope.
Local Open Scope Z_scope.

(* ===================================================================== *)
(** * Part I: definitions *)
(* ===================================================================== *)

(** ** JavaScript values used by the sources *)

Module Js.

(** A JavaScript string is modelled as a sequence of code units below 256. *)

(** The result of [parseInt]: an integral Number or NaN.  The Number is
    represented by the mathematical integer it denotes ([-0] is [Num 0]). *)
Inductive number : Type :=
| NaN
| Num (z : Z).

(** An [Error] object: its [message] and, when the runtime recorded one,
    its [stack]. *)
Record Error : Type := mkError {
  message : string;
  stack : option string
}.

(** [new Error(msg)]; the stack trace captured by the runtime is not
    modelled. *)
Definition new_Error (msg : string) : Error :=
  {| message := msg; stack := None |}.

(** The outcome of evaluating a statement or an (awaited) call: a value,
    or a thrown error (a rejected promise, for an async function). *)
Inductive completion (A : Type) : Type :=
| Normal (a : A)
| Throw (e : Error).
Arguments Normal {A} a.
Arguments Throw {A} e.

(** [v || d] where [v : string | undefined]: the default is taken when
    [v] is undefined and also when it is the empty string, both being
    falsy. *)
Definition or_else (v : option string) (d : string) : string :=
  match v with
  | Some s => if String.eqb s "" then d else s
  | None => d
  end.

(** [v === lit] where [v : string | undefined]. *)
Definition strict_eq (v : option string) (lit : string) : bool :=
  match v with
  | Some s => String.eqb s lit
  | None => false
  end.

(** White space skipped by [parseInt]: TAB, LF, VT, FF, CR, SP, NBSP. *)
Definition is_white_space (c : ascii) : bool :=
  let n := Z.of_nat (nat_of_ascii c) in
  ((9 <=? n) && (n <=? 13)) || (n =? 32) || (n =? 160).

Fixpoint trim_start (s : string) : string :=
  match s with
  | String c rest => if is_white_space c then trim_start rest else s
  | EmptyString => EmptyString
  end.

Definition digit_value (c : ascii) : option Z :=
  let n := Z.of_nat (nat_of_ascii c) in
  if (48 <=? n) && (n <=? 57) then Some (n - 48) else None.

(** Value of the longest prefix of decimal digits; [acc] is [None] until
    a first digit has been read. *)
Fixpoint leading_digits (s : string) (acc : option Z) : option Z :=
  match s with
  | String c rest =>
      match digit_value c with
      | Some d =>
          leading_digits rest
            (Some (10 * (match acc with Some a => a | None => 0 end) + d))
      | None => acc
      end
  | EmptyString => acc
  end.

(** [parseInt(s, 10)]: skip leading white space, read an optional sign,
    then the longest run of decimal digits; NaN when there is none. *)
Definition parseInt (s : string) : number :=
  let s1 := trim_start s in
  let '(sign, s2) :=
    match s1 with
    | String "-"%char rest => (-1, rest)
    | String "+"%char rest => (1, rest)
    | _ => (1, s1)
    end in
  match leading_digits s2 None with
  | Some n => Num (sign * n)
  | None => NaN
  end.

(** [c.toLowerCase()] on the letters A-Z. *)
Definition lower_char (c : ascii) : ascii :=
  let n := nat_of_ascii c in
  if ((65 <=? n) && (n <=? 90))%nat then ascii_of_nat (n + 32) else c.

Fixpoint toLowerCase (s : string) : string :=
  match s with
  | String c rest => String (lower_char c) (toLowerCase rest)
  | EmptyString => EmptyString
  end.

End Js.

Export Js.

(** ** [config/index.ts] *)

Module server.
Record t : Type := mk {
  nodeEnv : string;
  port : number;
  apiPrefix : string
}.
End server.

Module database.
Record t : Type := mk {
  host : string;
  port : number;
  name : string;
  user : string;
  password : string;
  poolMin : number;
  poolMax : number
}.
End database.

Module redis.
Record t : Type := mk {
  host : string;
  port : number;
  password : string;
  db : number
}.
End redis.

Module jwt.
Record t : Type := mk {
  secret : string;
  expiresIn : string;
  refreshExpiresIn : string
}.
End jwt.

Module session.
Record t : Type := mk {
  timeoutMinutes : number;
  warningMinutes : number;
  maxDurationHours : number
}.
End session.

Module security.
Record t : Type := mk {
  bcryptRounds : number;
  maxLoginAttempts : number;
  lockoutDurationMinutes : number;
  rateLimitWindowMinutes : number;
  rateLimitMaxRequests : number;
  authRateLimitWindowMinutes : number;
  authRateLimitMaxAttempts : number
}.
End security.

Module cors.
Record t : Type := mk {
  origin : string;
  credentials : bool
}.
End cors.

Module logging.
Record t : Type := mk {
  level : string;
  filePath : string
}.
End logging.

Record Config : Type := mkConfig {
  server : server.t;
  database : database.t;
  redis : redis.t;
  jwt : jwt.t;
  session : session.t;
  security : security.t;
  cors : cors.t;
  logging : logging.t
}.

Module ConfigModule.

(** [process.env]: a finite map from variable names to string values. *)
Abbreviation Env := (gmap string string).

(** [dotenv.config({ path })]: the variables read from the [.env] file,
    when there is one, are added to the environment without replacing a
    variable that is already set. *)
Definition dotenv_config (file : option Env) (env : Env) : Env :=
  match file with
  | Some vars => env ∪ vars
  | None => env
  end.

Definition JWT_PLACEHOLDER : string := "your-secret-key-change-in-production".

(** The object literal bound to [config]. *)
Definition config (env : Env) : Config :=
  {| server :=
       {| server.nodeEnv := or_else (env !! "NODE_ENV") "development";
          server.port := parseInt (or_else (env !! "PORT") "3000");
          server.apiPrefix := or_else (env !! "API_PREFIX") "/api" |};
     database :=
       {| database.host := or_else (env !! "DB_HOST") "localhost";
          database.port := parseInt (or_else (env !! "DB_PORT") "5432");
          database.name := or_else (env !! "DB_NAME") "ward_manager";
          database.user := or_else (env !! "DB_USER") "postgres";
          database.password := or_else (env !! "DB_PASSWORD") "postgres";
          database.poolMin := parseInt (or_else (env !! "DB_POOL_MIN") "2");
          database.poolMax := parseInt (or_else (env !! "DB_POOL_MAX") "10") |};
     redis :=
       {| redis.host := or_else (env !! "REDIS_HOST") "localhost";
          redis.port := parseInt (or_else (env !! "REDIS_PORT") "6379");
          redis.password := or_else (env !! "REDIS_PASSWORD") "";
          redis.db := parseInt (or_else (env !! "REDIS_DB") "0") |};
     jwt :=
       {| jwt.secret := or_else (env !! "JWT_SECRET") JWT_PLACEHOLDER;
          jwt.expiresIn := or_else (env !! "JWT_EXPIRES_IN") "30m";
          jwt.refreshExpiresIn := or_else (env !! "JWT_REFRESH_EXPIRES_IN") "7d" |};
     session :=
       {| session.timeoutMinutes :=
            parseInt (or_else (env !! "SESSION_TIMEOUT_MINUTES") "30");
          session.warningMinutes :=
            parseInt (or_else (env !! "SESSION_WARNING_MINUTES") "5");
          session.maxDurationHours :=
            parseInt (or_else (env !! "SESSION_MAX_DURATION_HOURS") "12") |};
     security :=
       {| security.bcryptRounds := parseInt (or_else (env !! "BCRYPT_ROUNDS") "12");
          security.maxLoginAttempts :=
            parseInt (or_else (env !! "MAX_LOGIN_ATTEMPTS") "5");
          security.lockoutDurationMinutes :=
            parseInt (or_else (env !! "LOCKOUT_DURATION_MINUTES") "15");
          security.rateLimitWindowMinutes :=
            parseInt (or_else (env !! "RATE_LIMIT_WINDOW_MINUTES") "1");
          security.rateLimitMaxRequests :=
            parseInt (or_else (env !! "RATE_LIMIT_MAX_REQUESTS") "100");
          security.authRateLimitWindowMinutes :=
            parseInt (or_else (env !! "AUTH_RATE_LIMIT_WINDOW_MINUTES") "15");
          security.authRateLimitMaxAttempts :=
            parseInt (or_else (env !! "AUTH_RATE_LIMIT_MAX_ATTEMPTS") "5") |};
     cors :=
       {| cors.origin := or_else (env !! "CORS_ORIGIN") "http://localhost:5173";
          cors.credentials := strict_eq (env !! "CORS_CREDENTIALS") "true" |};
     logging :=
       {| logging.level := or_else (env !! "LOG_LEVEL") "info";
          logging.filePath := or_else (env !! "LOG_FILE_PATH") "./logs/app.log" |}
  |}.

(** The "validate critical configuration" block. *)
Definition validate (c : Config) : completion unit :=
  if String.eqb (server.nodeEnv (server c)) "production" then
    if String.eqb (jwt.secret (jwt c)) JWT_PLACEHOLDER then
      Throw (new_Error "JWT_SECRET must be set in production environment")
    else if String.eqb (database.password (database c)) ""
            || String.eqb (database.password (database c)) "postgres" then
      Throw (new_Error "DB_PASSWORD must be set securely in production environment")
    else Normal tt
  else Normal tt.

(** Loading the module: build [config], validate it, export it. *)
Definition load (env : Env) : completion Config :=
  match validate (config env) with
  | Normal _ => Normal (config env)
  | Throw e => Throw e
  end.

(** The reading of a setting that takes the default only when the
    variable is unset (used to compare with [config]). *)
Definition parse_or_default {A : Type} (parse : string -> A) (dflt : A)
    (v : option string) : A :=
  match v with
  | Some s => parse s
  | None => dflt
  end.

(** [field] is read from the variable [var]: it is [dflt] when the variable
    is unset or set to the empty string, and [parse] of its value otherwise. *)
Definition reads {A : Type} (env : Env) (var : string) (parse : string -> A)
    (dflt : A) (field : A) : Prop :=
  (env !! var = None \/ env !! var = Some "" -> field = dflt) /\
  (forall s, env !! var = Some s -> s <> "" -> field = parse s).

End ConfigModule.

(** ** Effects: state, exceptions, logging, the outside world *)

Module Logger.

Inductive Level : Type := Error_ | Warn | Info | Debug.

Inductive Value : Type :=
| VString (s : string)
| VNumber (n : Z)
| VNull
| VUndefined
| VError (e : Error).

Inductive Meta : Type :=
| NoMeta
| MetaValue (v : Value)
| MetaObject (fields : list (string * Value)).

Record Entry : Type := mkEntry {
  level : Level;
  text : string;
  meta : Meta
}.

Definition of_option (v : option string) : Value :=
  match v with Some s => VString s | None => VUndefined end.

End Logger.

(** The readings the sources take from the JavaScript runtime.  [World] is
    the state of everything outside the process image: clock, network,
    the PostgreSQL and Redis servers. *)
Class Runtime (World : Type) : Type := {
  (** [Date.now()], in milliseconds *)
  Date_now : World -> Z;
  (** [new Date().toISOString()] *)
  Date_toISOString : World -> string;
  (** [process.uptime()], in seconds *)
  process_uptime : World -> Q
}.

Module Eff.

(** The state a method runs in: the fields of its object ([this]), the
    entries handed to the logger so far (most recent first) and the
    outside world. *)
Record State (World Self : Type) : Type := mkState {
  this : Self;
  logged : list Logger.Entry;
  world : World
}.
Arguments mkState {World Self} this logged world.
Arguments this {World Self} s.
Arguments logged {World Self} s.
Arguments world {World Self} s.

(** A computation that may read and write the state and may throw.  An
    async method is run to completion: its awaits are sequential calls. *)
Definition Eff (World Self A : Type) : Type :=
  State World Self -> completion A * State World Self.

Section Ops.
Context {World Self : Type}.

Definition ret {A : Type} (a : A) : Eff World Self A :=
  fun s => (Normal a, s).

Definition bind {A B : Type} (m : Eff World Self A) (k : A -> Eff World Self B)
    : Eff World Self B :=
  fun s =>
    match m s with
    | (Normal a, s') => k a s'
    | (Throw e, s') => (Throw e, s')
    end.

(** [throw e] *)
Definition throw {A : Type} (e : Error) : Eff World Self A :=
  fun s => (Throw e, s).

(** [try { m } catch (error) { h error }]: the state reached when [m]
    threw is the one the handler starts from. *)
Definition try_catch {A : Type} (m : Eff World Self A)
    (h : Error -> Eff World Self A) : Eff World Self A :=
  fun s =>
    match m s with
    | (Normal a, s') => (Normal a, s')
    | (Throw e, s') => h e s'
    end.

Definition get_this : Eff World Self Self :=
  fun s => (Normal (this s), s).

Definition set_this (v : Self) : Eff World Self unit :=
  fun s => (Normal tt, mkState v (logged s) (world s)).

(** Modelled from the spec: [utils/logger] (the logger of the project
    skeleton) is not among the sources; a call [logger.level(text, meta)]
    records the entry and returns. *)
Definition log (l : Logger.Level) (text : string) (m : Logger.Meta)
    : Eff World Self unit :=
  fun s => (Normal tt, mkState (this s) (Logger.mkEntry l text m :: logged s) (world s)).

(** A call into a library or the runtime: it acts on the outside world
    only. *)
Definition call {A : Type} (f : World -> completion A * World)
    : Eff World Self A :=
  fun s =>
    let '(r, w) := f (world s) in (r, mkState (this s) (logged s) w).

(** A reading of the runtime that cannot fail. *)
Definition read {A : Type} (f : World -> A) : Eff World Self A :=
  fun s => (Normal (f (world s)), s).

(** [m], run in state [s], throws an error whose message is [msg] and
    leaves the state as it was. *)
Definition rejects {A : Type} (m : Eff World Self A) (s : State World Self)
    (msg : string) : Prop :=
  m s = (Throw (new_Error msg), s).

End Ops.

End Eff.

Export Eff.

Declare Scope eff_scope.
Delimit Scope eff_scope with eff.
Notation "x <- m ;; k" := (Eff.bind m (fun x => k))
  (at level 100, m at next level, right associativity) : eff_scope.
Notation "m ;; k" := (Eff.bind m (fun _ => k))
  (at level 100, right associativity) : eff_scope.

(** ** [config/database.ts] *)

Module Pg.

(** The options object passed to [new Pool]. *)
Record PoolConfig : Type := mkPoolConfig {
  host : string;
  port : number;
  database : string;
  user : string;
  password : string;
  min : number;
  max : number;
  idleTimeoutMillis : Z;
  connectionTimeoutMillis : Z
}.

(** The part of the [pg] package the wrapper calls.  The package is not
    part of the repository: its operations are parameters, each acting on
    the outside world and either returning or throwing. *)
Class Api (World : Type) : Type := {
  Pool : Type;
  PoolClient : Type;
  QueryResult : Type;
  SqlValue : Type;
  Pool_new : PoolConfig -> World -> completion Pool * World;
  Pool_connect : Pool -> World -> completion PoolClient * World;
  Pool_query : Pool -> string -> option (list SqlValue) -> World ->
               completion QueryResult * World;
  Pool_end : Pool -> World -> completion unit * World;
  Client_query : PoolClient -> string -> World -> completion QueryResult * World;
  Client_release : PoolClient -> World -> completion unit * World;
  rowCount : QueryResult -> option Z
}.

End Pg.

Module Database.
Section Database.
Context {World : Type} `{RT : Runtime World} `{PG : Pg.Api World}.
Variable config : Config.

Local Open Scope eff_scope.

(** The fields of the class: [private pool: Pool | null = null]. *)
Record Database : Type := mkDatabase {
  pool : option Pg.Pool
}.

Abbreviation M := (Eff World Database).

(** [new Database()] *)
Definition new : Database := {| pool := None |}.

Definition NOT_INITIALIZED : string :=
  "Database pool not initialized. Call connect() first.".

(** [if (!this.pool) throw new Error(...)], yielding the pool otherwise. *)
Definition require_pool : M Pg.Pool :=
  self <- get_this ;;
  match pool self with
  | Some p => ret p
  | None => throw (new_Error NOT_INITIALIZED)
  end.

Definition pool_options : Pg.PoolConfig :=
  {| Pg.host := database.host (database config);
     Pg.port := database.port (database config);
     Pg.database := database.name (database config);
     Pg.user := database.user (database config);
     Pg.password := database.password (database config);
     Pg.min := database.poolMin (database config);
     Pg.max := database.poolMax (database config);
     Pg.idleTimeoutMillis := 30000;
     Pg.connectionTimeoutMillis := 2000 |}.

Definition connect : M unit :=
  try_catch
    (p <- call (Pg.Pool_new pool_options) ;;
     set_this {| pool := Some p |} ;;
     client <- call (Pg.Pool_connect p) ;;
     call (Pg.Client_query client "SELECT NOW()") ;;
     call (Pg.Client_release client) ;;
     log Logger.Info "Database connection pool established successfully" Logger.NoMeta)
    (fun error =>
       log Logger.Error_ "Failed to connect to database:"
         (Logger.MetaValue (Logger.VError error)) ;;
       throw error).

Definition getClient : M Pg.PoolClient :=
  p <- require_pool ;;
  call (Pg.Pool_connect p).

Definition query (text : string) (params : option (list Pg.SqlValue))
    : M Pg.QueryResult :=
  p <- require_pool ;;
  start <- read Date_now ;;
  try_catch
    (result <- call (Pg.Pool_query p text params) ;;
     finish <- read Date_now ;;
     let duration := finish - start in
     log Logger.Debug "Executed query"
       (Logger.MetaObject
          [("text", Logger.VString text);
           ("duration", Logger.VNumber duration);
           ("rows", match Pg.rowCount result with
                    | Some n => Logger.VNumber n
                    | None => Logger.VNull
                    end)]) ;;
     ret result)
    (fun error =>
       log Logger.Error_ "Query error:"
         (Logger.MetaObject
            [("text", Logger.VString text); ("error", Logger.VError error)]) ;;
       throw error).

Definition disconnect : M unit :=
  self <- get_this ;;
  match pool self with
  | Some p =>
      call (Pg.Pool_end p) ;;
      set_this {| pool := None |} ;;
      log Logger.Info "Database connection pool closed" Logger.NoMeta
  | None => ret tt
  end.

Definition getPool : M Pg.Pool := require_pool.

End Database.
End Database.

(** ** [config/redis.ts] *)

Module RedisLib.

(** The options object built in [connect]. *)
Record Options : Type := mkOptions {
  socket_host : string;
  socket_port : number;
  database : number;
  password : option string
}.

(** What a listener registered with [client.on] does when its event
    fires: it hands one entry to the logger.  The argument is the error
    the event carries, if any. *)
Definition Listener : Type := option Error -> Logger.Entry.

(** The part of the [redis] package the wrapper calls; as for [pg], its
    operations are parameters acting on the outside world. *)
Class Api (World : Type) : Type := {
  RedisClientType : Type;
  createClient : Options -> World -> completion RedisClientType * World;
  on : RedisClientType -> string -> Listener -> World -> completion unit * World;
  connect : RedisClientType -> World -> completion unit * World;
  ping : RedisClientType -> World -> completion string * World;
  setEx : RedisClientType -> string -> number -> string -> World ->
          completion unit * World;
  set : RedisClientType -> string -> string -> World -> completion unit * World;
  get : RedisClientType -> string -> World -> completion (option string) * World;
  del : RedisClientType -> string -> World -> completion Z * World;
  exists_ : RedisClientType -> string -> World -> completion Z * World;
  expire : RedisClientType -> string -> number -> World -> completion bool * World;
  quit : RedisClientType -> World -> completion string * World
}.

End RedisLib.

Module RedisClient.
Section RedisClient.
Context {World : Type} `{RD : RedisLib.Api World}.
Variable config : Config.

Local Open Scope eff_scope.

(** The fields of the class: [private client: RedisClientType | null = null]. *)
Record RedisClient : Type := mkRedisClient {
  client : option RedisLib.RedisClientType
}.

Abbreviation M := (Eff World RedisClient).

(** [new RedisClient()] *)
Definition new : RedisClient := {| client := None |}.

Definition NOT_INITIALIZED : string :=
  "Redis client not initialized. Call connect() first.".

(** [if (!this.client) throw new Error(...)], yielding the client
    otherwise. *)
Definition require_client : M RedisLib.RedisClientType :=
  self <- get_this ;;
  match client self with
  | Some c => ret c
  | None => throw (new_Error NOT_INITIALIZED)
  end.

(** [redisConfig], with the password added when it is configured (a
    non-empty string). *)
Definition redisConfig : RedisLib.Options :=
  {| RedisLib.socket_host := redis.host (redis config);
     RedisLib.socket_port := redis.port (redis config);
     RedisLib.database := redis.db (redis config);
     RedisLib.password :=
       if String.eqb (redis.password (redis config)) "" then None
       else Some (redis.password (redis config)) |}.

Definition error_listener : RedisLib.Listener :=
  fun err =>
    Logger.mkEntry Logger.Error_ "Redis client error:"
      (match err with
       | Some e => Logger.MetaValue (Logger.VError e)
       | None => Logger.MetaValue Logger.VUndefined
       end).

Definition connect_listener : RedisLib.Listener :=
  fun _ => Logger.mkEntry Logger.Info "Redis client connecting..." Logger.NoMeta.

Definition ready_listener : RedisLib.Listener :=
  fun _ => Logger.mkEntry Logger.Info "Redis client ready" Logger.NoMeta.

Definition reconnecting_listener : RedisLib.Listener :=
  fun _ => Logger.mkEntry Logger.Warn "Redis client reconnecting..." Logger.NoMeta.

Definition connect : M unit :=
  try_catch
    (c <- call (RedisLib.createClient redisConfig) ;;
     set_this {| client := Some c |} ;;
     call (RedisLib.on c "error" error_listener) ;;
     call (RedisLib.on c "connect" connect_listener) ;;
     call (RedisLib.on c "ready" ready_listener) ;;
     call (RedisLib.on c "reconnecting" reconnecting_listener) ;;
     call (RedisLib.connect c) ;;
     call (RedisLib.ping c) ;;
     log Logger.Info "Redis connection established successfully" Logger.NoMeta)
    (fun error =>
       log Logger.Error_ "Failed to connect to Redis:"
         (Logger.MetaValue (Logger.VError error)) ;;
       throw error).

Definition getClient : M RedisLib.RedisClientType := require_client.

(** The [catch] block shared by the key operations:
    [logger.error('Redis OP error:', { key, error }); throw error]. *)
Definition log_and_rethrow {A : Type} (what : string) (key : string)
    (error : Error) : M A :=
  log Logger.Error_ what
    (Logger.MetaObject [("key", Logger.VString key); ("error", Logger.VError error)]) ;;
  throw error.

(** Truthiness of [expirationSeconds?: number]: undefined, NaN and 0 are
    falsy. *)
Definition truthy (n : number) : bool :=
  match n with
  | Num z => negb (z =? 0)
  | NaN => false
  end.

Definition set (key value : string) (expirationSeconds : option number) : M unit :=
  c <- require_client ;;
  try_catch
    (match expirationSeconds with
     | Some secs =>
         if truthy secs
         then call (RedisLib.setEx c key secs value)
         else call (RedisLib.set c key value)
     | None => call (RedisLib.set c key value)
     end)
    (log_and_rethrow "Redis SET error:" key).

Definition get (key : string) : M (option string) :=
  c <- require_client ;;
  try_catch
    (call (RedisLib.get c key))
    (log_and_rethrow "Redis GET error:" key).

Definition del (key : string) : M unit :=
  c <- require_client ;;
  try_catch
    (call (RedisLib.del c key) ;; ret tt)
    (log_and_rethrow "Redis DEL error:" key).

Definition exists_ (key : string) : M bool :=
  c <- require_client ;;
  try_catch
    (result <- call (RedisLib.exists_ c key) ;;
     ret (result =? 1))
    (log_and_rethrow "Redis EXISTS error:" key).

Definition expire (key : string) (seconds : number) : M unit :=
  c <- require_client ;;
  try_catch
    (call (RedisLib.expire c key seconds) ;; ret tt)
    (log_and_rethrow "Redis EXPIRE error:" key).

Definition disconnect : M unit :=
  self <- get_this ;;
  match client self with
  | Some c =>
      call (RedisLib.quit c) ;;
      set_this {| client := None |} ;;
      log Logger.Info "Redis connection closed" Logger.NoMeta
  | None => ret tt
  end.

End RedisClient.
End RedisClient.

(** ** The Express framework, as far as [app.ts] uses it *)

(** The framework is not part of the repository.  What is modelled of it
    is its documented dispatch with the default settings: the layers
    registered with [app.use] and [app.get] run in registration order; a
    handler either passes the request on, passes an error on, or ends the
    response; a handler taking four parameters is an error handler, run
    only while an error is pending; a route registered with [app.get]
    also serves HEAD requests; a route path is matched case-insensitively
    and with an optional trailing slash. *)

Module Express.

#[local] Set Warnings "-register-all".

(** A JSON value, as passed to [res.json]. *)
Inductive JSON : Type :=
| JNull
| JBool (b : bool)
| JNumber (q : Q)
| JString (s : string)
| JArray (items : list JSON)
| JObject (fields : list (string * JSON)).

(** An incoming request: [req.method] (upper case, as Node delivers it),
    [req.path] (the path of the URL, without the query string), [req.ip],
    the headers under their lower-case names and the text of the body.
    [req.body], which the body parsers set, is read by no handler of the
    source and is left out. *)
Record Request : Type := mkRequest {
  method : string;
  path : string;
  ip : option string;
  headers : list (string * string);
  payload : string
}.

(** [req.get(name)] for a lower-case [name]. *)
Definition get_header (req : Request) (name : string) : option string :=
  snd <$> List.find (fun h => String.eqb (fst h) name) (headers req).

(** A response that has been sent: the status code and the value given to
    [res.json] ([None] when the response was ended without one).  Response
    headers are not modelled. *)
Record Response : Type := mkResponse {
  status : Z;
  body : option JSON
}.

(** What a handler does with a request: it calls [next()], calls
    [next(err)], or ends the response. *)
Inductive Outcome : Type :=
| Next
| NextError (e : Error)
| End_ (res : Response).

(** The result of running a stack of layers: a response was sent, or no
    layer ended the response and the request falls through (to the rest of
    the stack, or to the framework's default responder) with or without a
    pending error. *)
Inductive Answer : Type :=
| Sent (res : Response)
| Unhandled (err : option Error).

Section Stack.
Context {World : Type}.

(** The handlers of the source are closures without fields of their own. *)
Abbreviation St := (State World unit).

Definition Handler : Type := Request -> Eff World unit Outcome.
Definition ErrorHandler : Type := Error -> Request -> Eff World unit Outcome.

(** A middleware supplied by a library: it acts on the outside world only
    and cannot write to the application's logger. *)
Definition Vendor : Type := Request -> World -> Outcome * World.

Definition vendor (f : Vendor) : Handler :=
  fun req s =>
    let '(o, w) := f req (world s) in (Normal o, mkState (this s) (logged s) w).

(** A layer of the application's stack. *)
Inductive Layer : Type :=
| Use (h : Handler)               (* app.use(fn), fn with fewer than 4 parameters *)
| UseError (h : ErrorHandler)     (* app.use(fn), fn with 4 parameters *)
| Route (verb : string) (pattern : string) (h : Handler).  (* app.get(pattern, fn) *)

Definition Application : Type := list Layer.

(** [express()] *)
Definition express : Application := [].

(** [app.use(fn)], [app.get(pattern, fn)]: the layer is added at the end
    of the stack. *)
Definition use (h : Handler) (app : Application) : Application :=
  (app ++ [Use h])%list.

Definition use_error (h : ErrorHandler) (app : Application) : Application :=
  (app ++ [UseError h])%list.

Definition get (pattern : string) (h : Handler) (app : Application) : Application :=
  (app ++ [Route "get" pattern h])%list.

(** A route registered for [verb] handles the request method: the method
    is compared in lower case, and a HEAD request is served by the GET
    route when no HEAD route exists. *)
Definition handles_method (verb : string) (m : string) : bool :=
  let name := toLowerCase m in
  String.eqb (if String.eqb name "head" then "get" else name) verb.

(** A literal pattern (no parameters, no trailing slash) matches the
    request path with the default settings: case-insensitive, and an
    optional trailing slash is accepted. *)
Definition matches_path (pattern : string) (p : string) : bool :=
  let p' := toLowerCase p in
  String.eqb p' (toLowerCase pattern) || String.eqb p' (toLowerCase pattern ++ "/").

(** How the stack continues after a handler has run.  An exception thrown
    by a handler is caught by the framework and becomes [next(err)]. *)
Definition after (r : completion Outcome * St)
    (continue : option Error -> St -> Answer * St) : Answer * St :=
  match r with
  | (Normal Next, s') => continue None s'
  | (Normal (NextError e), s') => continue (Some e) s'
  | (Normal (End_ res), s') => (Sent res, s')
  | (Throw e, s') => continue (Some e) s'
  end.

(** Dispatch of a request through the stack, in registration order.
    While an error is pending only error handlers run; without one they
    are skipped. *)
Fixpoint handle (stack : Application) (err : option Error) (req : Request)
    (s : St) : Answer * St :=
  match stack with
  | [] => (Unhandled err, s)
  | layer :: rest =>
      match layer, err with
      | Use h, None => after (h req s) (fun err' => handle rest err' req)
      | UseError h, Some e => after (h e req s) (fun err' => handle rest err' req)
      | Route verb pattern h, None =>
          if handles_method verb (method req) && matches_path pattern (path req)
          then after (h req s) (fun err' => handle rest err' req)
          else handle rest err req s
      | _, _ => handle rest err req s
      end
  end.

(** [res.status(code).json(value)] *)
Definition json (code : Z) (value : JSON) : Eff World unit Outcome :=
  ret (End_ {| status := code; body := Some value |}).

End Stack.

Arguments Handler World : clear implicits.
Arguments ErrorHandler World : clear implicits.
Arguments Vendor World : clear implicits.
Arguments Layer World : clear implicits.
Arguments Application World : clear implicits.
Arguments express {World}.

(** Field [k] of a JSON object. *)
Definition field (k : string) (j : JSON) : option JSON :=
  match j with
  | JObject fields => snd <$> List.find (fun kv => String.eqb (fst kv) k) fields
  | _ => None
  end.

Definition is_string (j : option JSON) : bool :=
  match j with Some (JString _) => true | _ => false end.

Definition keys (j : JSON) : list string :=
  match j with JObject fields => List.map fst fields | _ => [] end.

(** The error envelope [{ error: { code, message, timestamp } }], the three
    members being strings. *)
Definition is_error_envelope (j : JSON) : bool :=
  match j with
  | JObject [(k, e)] =>
      String.eqb k "error"
      && bool_decide (keys e = ["code"; "message"; "timestamp"])
      && is_string (field "code" e)
      && is_string (field "message" e)
      && is_string (field "timestamp" e)
  | _ => false
  end.

End Express.

(** The middleware [app.ts] takes from libraries ([helmet], [cors],
    [express.json], [express.urlencoded]).  They are not part of the
    repository: each is a parameter. *)

Module Vendors.

Record CorsOptions : Type := mkCorsOptions {
  origin : string;
  credentials : bool
}.

Class Middleware (World : Type) : Type := {
  helmet : Express.Vendor World;
  cors : CorsOptions -> Express.Vendor World;
  express_json : Express.Vendor World;
  (** [express.urlencoded({ extended })] *)
  express_urlencoded : bool -> Express.Vendor World
}.

End Vendors.

(** ** [app.ts] *)

Module App.
Import Express.
Section App.
Context {World : Type} `{RT : Runtime World} `{MW : Vendors.Middleware World}.
Variable config : Config.

Local Open Scope eff_scope.

Abbreviation St := (State World unit).

(** The request logging middleware. *)
Definition requestLogger : Handler World :=
  fun req =>
    log Logger.Info (method req ++ " " ++ path req)
      (Logger.MetaObject
         [("ip", Logger.of_option (ip req));
          ("userAgent", Logger.of_option (get_header req "user-agent"))]) ;;
    ret Next.

Definition initializeMiddleware (app : Application World) : Application World :=
  let app := use (vendor Vendors.helmet) app in
  let app := use (vendor (Vendors.cors
                   {| Vendors.origin := cors.origin (cors config);
                      Vendors.credentials := cors.credentials (cors config) |}))
               app in
  let app := use (vendor Vendors.express_json) app in
  let app := use (vendor (Vendors.express_urlencoded true)) app in
  use requestLogger app.

(** The health check endpoint. *)
Definition healthCheck : Handler World :=
  fun _req =>
    timestamp <- read Date_toISOString ;;
    uptime <- read process_uptime ;;
    json 200
      (JObject [("status", JString "ok");
                ("timestamp", JString timestamp);
                ("uptime", JNumber uptime)]).

Definition initializeRoutes (app : Application World) : Application World :=
  get "/health" healthCheck app.

(** The 404 handler. *)
Definition notFoundHandler : Handler World :=
  fun _req =>
    timestamp <- read Date_toISOString ;;
    json 404
      (JObject [("error", JObject
         [("code", JString "NOT_FOUND");
          ("message", JString "The requested resource was not found");
          ("timestamp", JString timestamp)])]).

(** The global error handler. *)
Definition errorHandler : ErrorHandler World :=
  fun err req =>
    log Logger.Error_ "Unhandled error:"
      (Logger.MetaObject
         [("error", Logger.VString (message err));
          ("stack", Logger.of_option (stack err));
          ("path", Logger.VString (path req));
          ("method", Logger.VString (method req))]) ;;
    timestamp <- read Date_toISOString ;;
    json 500
      (JObject [("error", JObject
         [("code", JString "INTERNAL_SERVER_ERROR");
          ("message",
           JString (if String.eqb (server.nodeEnv (server config)) "production"
                    then "An internal server error occurred"
                    else message err));
          ("timestamp", JString timestamp)])]).

Definition initializeErrorHandling (app : Application World) : Application World :=
  let app := use notFoundHandler app in
  use_error errorHandler app.

(** The fields of the class: [public app: Application]. *)
Record App : Type := mkApp {
  app : Application World
}.

(** The constructor. *)
Definition new : App :=
  {| app := initializeErrorHandling (initializeRoutes (initializeMiddleware express)) |}.

Definition getApp (self : App) : Application World := app self.

(** The application answering a request. *)
Definition respond (req : Request) : St -> Answer * St :=
  handle (getApp new) None req.

(** The request reaches the routes: every middleware registered by
    [initializeMiddleware] calls [next()], leaving the state [s']. *)
Definition reaches_routes (req : Request) (s s' : St) : Prop :=
  handle (initializeMiddleware express) None req s = (Unhandled None, s').

(** The responses of the three handlers and the entry the error handler
    logs, in a state [s]. *)
Definition health_response (s : St) : Response :=
  {| status := 200;
     body := Some (JObject
       [("status", JString "ok");
        ("timestamp", JString (Date_toISOString (world s)));
        ("uptime", JNumber (process_uptime (world s)))]) |}.

Definition not_found_response (s : St) : Response :=
  {| status := 404;
     body := Some (JObject [("error", JObject
       [("code", JString "NOT_FOUND");
        ("message", JString "The requested resource was not found");
        ("timestamp", JString (Date_toISOString (world s)))])]) |}.

Definition error_response (err : Error) (s : St) : Response :=
  {| status := 500;
     body := Some (JObject [("error", JObject
       [("code", JString "INTERNAL_SERVER_ERROR");
        ("message",
         JString (if String.eqb (server.nodeEnv (server config)) "production"
                  then "An internal server error occurred"
                  else message err));
        ("timestamp", JString (Date_toISOString (world s)))])]) |}.

Definition error_entry (err : Error) (req : Request) : Logger.Entry :=
  Logger.mkEntry Logger.Error_ "Unhandled error:"
    (Logger.MetaObject
       [("error", Logger.VString (message err));
        ("stack", Logger.of_option (stack err));
        ("path", Logger.VString (path req));
        ("method", Logger.VString (method req))]).

(** The request is one the health route serves: a GET or HEAD request
    whose path is /health, in any letter case, with or without a trailing
    slash. *)
Definition routed_to_health (req : Request) : Prop :=
  (toLowerCase (method req) = "get" \/ toLowerCase (method req) = "head") /\
  (toLowerCase (path req) = "/health" \/ toLowerCase (path req) = "/health/").

(** The [message] member of an error envelope. *)
Definition client_message (res : Response) : option JSON :=
  match body res with
  | Some j => match field "error" j with
              | Some e => field "message" e
              | None => None
              end
  | None => None
  end.

End App.
End App.

(** ** The session manager of the design

    The repository holds no implementation of the session manager: only
    its design is written down.  The two operations below follow that
    design. *)

Module SessionManager.

(** The [Session] interface of the design document.  Dates are instants
    in milliseconds; durations are in milliseconds. *)
Record Session : Type := mkSession {
  id : string;
  userId : string;
  token : string;
  expiresAt : Z;
  lastActivityAt : Z;
  ipAddress : string;
  userAgent : string;
  createdAt : Z
}.

(** The idle-timeout and max-duration policy the manager owns. *)
Record Policy : Type := mkPolicy {
  idleTimeout : Z;
  maxDuration : Z
}.

Inductive Failure : Type :=
| Invalid   (* the token is unknown *)
| Expired.  (* the session is past its expiry or past the absolute ceiling *)

(** The session store: at most one live session per token. *)
Abbreviation Store := (gmap string Session).

(** The absolute ceiling of a session. *)
Definition ceiling (p : Policy) (sess : Session) : Z :=
  createdAt sess + maxDuration p.

(** Modelled from the spec: the session manager's [validate] is not
    implemented in the sources.  "validate(token) -> Session |
    expired/invalid: fails if token unknown, if now > expiresAt, or if
    now > createdAt + maxDuration (hard ceiling regardless of activity)." *)
Definition validate (p : Policy) (now : Z) (store : Store) (tok : string)
    : Session + Failure :=
  match store !! tok with
  | None => inr Invalid
  | Some sess =>
      if now >? expiresAt sess then inr Expired
      else if now >? createdAt sess + maxDuration p then inr Expired
      else inl sess
  end.

(** Modelled from the spec: the session manager's [renew] is not
    implemented in the sources.  "renew(token) -> Session: extends
    expiresAt = now + idleTimeout but never past the absolute ceiling;
    no-op error if already expired."  A renewal is an activity, so the
    last-activity instant becomes [now] (the data model has expiry =
    lastActivityAt + idleTimeout, capped by createdAt + maxDuration). *)
Definition renew (p : Policy) (now : Z) (store : Store) (tok : string)
    : (Session + Failure) * Store :=
  match validate p now store tok with
  | inl sess =>
      let sess' :=
        {| id := id sess;
           userId := userId sess;
           token := token sess;
           expiresAt := Z.min (now + idleTimeout p) (ceiling p sess);
           lastActivityAt := now;
           ipAddress := ipAddress sess;
           userAgent := userAgent sess;
           createdAt := createdAt sess |} in
      (inl sess', <[tok := sess']> store)
  | inr failure => (inr failure, store)
  end.

(** Every stored session expires no later than its ceiling. *)
Definition capped (p : Policy) (store : Store) : Prop :=
  forall tok sess, store !! tok = Some sess -> expiresAt sess <= ceiling p sess.

End SessionManager.

(** ** [index.ts] *)

Module Index.

(** What has become of the process: it goes on, or [process.exit(code)]
    was called. *)
Inductive Process : Type :=
| Running
| Exited (code : Z).

(** The two singletons the module imports. *)
Record Singletons (Database RedisClient : Type) : Type := mkSingletons {
  database : Database;
  redis : RedisClient
}.
Arguments mkSingletons {Database RedisClient} database redis.
Arguments database {Database RedisClient} s.
Arguments redis {Database RedisClient} s.

Section Index.
Context {World : Type} `{RT : Runtime World} `{PG : Pg.Api World}
  `{RD : RedisLib.Api World}.
Variable config : Config.

Local Open Scope eff_scope.

Abbreviation Self := (Singletons Database.Database RedisClient.RedisClient).
Abbreviation M := (Eff World Self).

(** A method call on the [database] singleton. *)
Definition on_database {A : Type} (m : Eff World Database.Database A) : M A :=
  fun s =>
    let '(r, s') := m (mkState (database (this s)) (logged s) (world s)) in
    (r, mkState (mkSingletons (this s') (redis (this s))) (logged s') (world s')).

(** A method call on the [redis] singleton. *)
Definition on_redis {A : Type} (m : Eff World RedisClient.RedisClient A) : M A :=
  fun s =>
    let '(r, s') := m (mkState (redis (this s)) (logged s) (world s)) in
    (r, mkState (mkSingletons (database (this s)) (this s')) (logged s') (world s')).

(** [initialize()]: the [catch] block ends with [process.exit(1)]. *)
Definition initialize : M Process :=
  try_catch
    (log Logger.Info "Connecting to database..." Logger.NoMeta ;;
     on_database (Database.connect config) ;;
     log Logger.Info "Connecting to Redis..." Logger.NoMeta ;;
     on_redis (RedisClient.connect config) ;;
     log Logger.Info "All connections established successfully" Logger.NoMeta ;;
     ret Running)
    (fun error =>
       log Logger.Error_ "Failed to initialize application:"
         (Logger.MetaValue (Logger.VError error)) ;;
       ret (Exited 1)).

(** The callback [gracefulShutdown] gives to [server.close]: it runs once
    the HTTP server has closed, and ends with [process.exit] on both
    paths. *)
Definition onServerClosed : M Process :=
  log Logger.Info "HTTP server closed" Logger.NoMeta ;;
  try_catch
    (on_database Database.disconnect ;;
     on_redis RedisClient.disconnect ;;
     log Logger.Info "All connections closed. Exiting process." Logger.NoMeta ;;
     ret (Exited 0))
    (fun error =>
       log Logger.Error_ "Error during shutdown:"
         (Logger.MetaValue (Logger.VError error)) ;;
       ret (Exited 1)).

End Index.
End Index.

(** ** A small instance of the library interfaces

    Used to run the definitions on concrete inputs.  The outside world
    counts the calls made into the libraries; every call succeeds. *)

Module Sim.

Definition World : Type := nat.

Definition tick {A : Type} (a : A) : World -> completion A * World :=
  fun w => (Normal a, S w).

#[export] Instance runtime : Runtime World := {
  Date_now w := 1000 * Z.of_nat w;
  Date_toISOString _ := "2024-01-01T00:00:00.000Z";
  process_uptime w := inject_Z (Z.of_nat w)
}.

#[export] Instance pg : Pg.Api World := {
  Pg.Pool := unit;
  Pg.PoolClient := unit;
  Pg.QueryResult := list string;
  Pg.SqlValue := string;
  Pg.Pool_new _ := tick tt;
  Pg.Pool_connect _ := tick tt;
  Pg.Pool_query _ _ _ := tick [];
  Pg.Pool_end _ := tick tt;
  Pg.Client_query _ _ := tick [];
  Pg.Client_release _ := tick tt;
  Pg.rowCount r := Some (Z.of_nat (length r))
}.

#[export] Instance redis : RedisLib.Api World := {
  RedisLib.RedisClientType := unit;
  RedisLib.createClient _ := tick tt;
  RedisLib.on _ _ _ := tick tt;
  RedisLib.connect _ := tick tt;
  RedisLib.ping _ := tick "PONG";
  RedisLib.setEx _ _ _ _ := tick tt;
  RedisLib.set _ _ _ := tick tt;
  RedisLib.get _ _ := tick None;
  RedisLib.del _ _ := tick 0;
  RedisLib.exists_ _ _ := tick 0;
  RedisLib.expire _ _ _ := tick false;
  RedisLib.quit _ := tick "OK"
}.

(** The simulated middleware.  [helmet] and [express.urlencoded] pass
    every request on.  [cors] ends an OPTIONS request (a preflight) with
    204 and passes any other request on.  [express.json] skips a request
    without a body or with another content type; otherwise it applies the
    check body-parser makes in strict mode before parsing, rejecting with
    an error a text whose first non-blank character is neither an opening
    brace nor an opening bracket, and accepts what passes this check. *)
Definition is_blank (c : ascii) : bool :=
  let n := nat_of_ascii c in
  ((n =? 32) || (n =? 9) || (n =? 10) || (n =? 13))%nat.

Fixpoint firstchar (text : string) : option ascii :=
  match text with
  | String c rest => if is_blank c then firstchar rest else Some c
  | EmptyString => None
  end.

Definition has_json_type (req : Express.Request) : bool :=
  match Express.get_header req "content-type" with
  | Some t => String.prefix "application/json" (toLowerCase t)
  | None => false
  end.

Definition json_parser : Express.Vendor World :=
  fun req w =>
    if String.eqb (Express.payload req) "" then (Express.Next, w)
    else if negb (has_json_type req) then (Express.Next, w)
    else match firstchar (Express.payload req) with
         | Some "{"%char | Some "["%char | None => (Express.Next, S w)
         | Some _ =>
             (Express.NextError
                {| message := "Unexpected token in JSON at position 0";
                   stack := Some "SyntaxError: Unexpected token in JSON at position 0" |},
              S w)
         end.

Definition cors_preflight : Express.Vendor World :=
  fun req w =>
    if String.eqb (toLowerCase (Express.method req)) "options"
    then (Express.End_ {| Express.status := 204; Express.body := None |}, w)
    else (Express.Next, w).

#[export] Instance middleware : Vendors.Middleware World := {
  Vendors.helmet _ w := (Express.Next, w);
  Vendors.cors _ := cors_preflight;
  Vendors.express_json := json_parser;
  Vendors.express_urlencoded _ _ w := (Express.Next, w)
}.

(** Some requests. *)
Definition GET_health : Express.Request :=
  {| Express.method := "GET"; Express.path := "/health";
     Express.ip := Some "127.0.0.1";
     Express.headers := [("user-agent", "curl/8.0")];
     Express.payload := "" |}.

Definition HEAD_health : Express.Request :=
  {| Express.method := "HEAD"; Express.path := "/health";
     Express.ip := Some "127.0.0.1";
     Express.headers := [];
     Express.payload := "" |}.

Definition GET_health_bad_body : Express.Request :=
  {| Express.method := "GET"; Express.path := "/health";
     Express.ip := Some "127.0.0.1";
     Express.headers := [("content-type", "application/json"); ("content-length", "4")];
     Express.payload := "oops" |}.

Definition GET_users : Express.Request :=
  {| Express.method := "GET"; Express.path := "/api/users";
     Express.ip := None;
     Express.headers := [];
     Express.payload := "" |}.

Definition HEAD_Health_slash : Express.Request :=
  {| Express.method := "HEAD"; Express.path := "/Health/";
     Express.ip := None;
     Express.headers := [];
     Express.payload := "" |}.

Definition OPTIONS_users : Express.Request :=
  {| Express.method := "OPTIONS"; Express.path := "/api/users";
     Express.ip := None;
     Express.headers := [("origin", "http://localhost:5173")];
     Express.payload := "" |}.

(** The session policy of the design (30 minutes idle, 12 hours at most)
    and a session created at instant 0 under it. *)
Definition half_hour : Z := 30 * 60 * 1000.
Definition twelve_hours : Z := 12 * 60 * 60 * 1000.
Definition default_policy : SessionManager.Policy :=
  {| SessionManager.idleTimeout := half_hour;
     SessionManager.maxDuration := twelve_hours |}.

Definition session_of (created last expires : Z) : SessionManager.Session :=
  {| SessionManager.id := "1"; SessionManager.userId := "alice";
     SessionManager.token := "t-alice";
     SessionManager.expiresAt := expires;
     SessionManager.lastActivityAt := last;
     SessionManager.ipAddress := "127.0.0.1";
     SessionManager.userAgent := "curl/8.0";
     SessionManager.createdAt := created |}.

Definition alice : SessionManager.Session := session_of 0 0 half_hour.

(** The only pool and the only client of the simulation. *)
Definition the_pool : @Pg.Pool World pg := tt.
Definition the_client : @RedisLib.RedisClientType World redis := tt.

(** The state of a freshly constructed singleton. *)
Definition fresh {Self : Type} (self : Self) : State World Self :=
  mkState self [] 0%nat.

End Sim.

(** ** A second instance: the servers are down

    The pool and the client can be created, but every call that needs the
    server throws. *)

Module Down.

Definition World : Type := nat.

Definition refuse {A : Type} (msg : string) : World -> completion A * World :=
  fun w => (Throw (new_Error msg), S w).

Definition pg : Pg.Api World := {|
  Pg.Pool := unit;
  Pg.PoolClient := unit;
  Pg.QueryResult := list string;
  Pg.SqlValue := string;
  Pg.Pool_new _ := Sim.tick tt;
  Pg.Pool_connect _ := refuse "connect ECONNREFUSED 127.0.0.1:5432";
  Pg.Pool_query _ _ _ := refuse "connect ECONNREFUSED 127.0.0.1:5432";
  Pg.Pool_end _ := refuse "Called end on pool more than once";
  Pg.Client_query _ _ := Sim.tick [];
  Pg.Client_release _ := Sim.tick tt;
  Pg.rowCount r := Some (Z.of_nat (length r))
|}.

Definition redis : RedisLib.Api World := {|
  RedisLib.RedisClientType := unit;
  RedisLib.createClient _ := Sim.tick tt;
  RedisLib.on _ _ _ := Sim.tick tt;
  RedisLib.connect _ := refuse "connect ECONNREFUSED 127.0.0.1:6379";
  RedisLib.ping _ := refuse "The client is closed";
  RedisLib.setEx _ _ _ _ := refuse "The client is closed";
  RedisLib.set _ _ _ := refuse "The client is closed";
  RedisLib.get _ _ := refuse "The client is closed";
  RedisLib.del _ _ := refuse "The client is closed";
  RedisLib.exists_ _ _ := refuse "The client is closed";
  RedisLib.expire _ _ _ := refuse "The client is closed";
  RedisLib.quit _ := refuse "The client is closed"
|}.

Definition the_pool : @Pg.Pool World pg := tt.
Definition the_client : @RedisLib.RedisClientType World redis := tt.

End Down.

(* ===================================================================== *)
(** * Part II: lemmas and theorems *)
(* ===================================================================== *)

Module ConfigFacts.
Import ConfigModule.

(** *** Sanity checks of the primitives *)

Example parseInt_plain : parseInt "3000" = Num 3000.
Proof. reflexivity. Qed.

Example parseInt_junk_suffix : parseInt "  -42px" = Num (-42).
Proof. reflexivity. Qed.

Example parseInt_empty : parseInt "" = NaN.
Proof. reflexivity. Qed.

Example parseInt_no_digit : parseInt "abc" = NaN.
Proof. reflexivity. Qed.

Example config_default_port : server.port (server (config ∅)) = Num 3000.
Proof. reflexivity. Qed.

Example config_port_set :
  server.port (server (config {[ "PORT" := "8080" ]})) = Num 8080.
Proof. vm_compute. reflexivity. Qed.

(** *** How a setting is read *)

Lemma or_else_unset (d : string) : or_else None d = d.
Proof. reflexivity. Qed.

Lemma or_else_empty (d : string) : or_else (Some "") d = d.
Proof. reflexivity. Qed.

Lemma or_else_set (s d : string) : s <> "" -> or_else (Some s) d = s.
Proof.
  intros Hs. unfold or_else.
  destruct (String.eqb_spec s "") as [E | _]; [contradiction | reflexivity].
Qed.

Lemma reads_or_else {A : Type} (env : Env) (var : string)
    (parse : string -> A) (d : string) :
  reads env var parse (parse d) (parse (or_else (env !! var) d)).
Proof.
  split.
  - intros [-> | ->]; reflexivity.
  - intros s -> Hs. now rewrite or_else_set.
Qed.

Lemma strict_eq_true (v : option string) (lit : string) :
  strict_eq v lit = true <-> v = Some lit.
Proof.
  destruct v as [s |]; simpl.
  - rewrite String.eqb_eq. split; congruence.
  - split; discriminate.
Qed.

(** *** Validation *)

Lemma validate_non_production (c : Config) :
  server.nodeEnv (server c) <> "production" -> validate c = Normal tt.
Proof.
  intros H. unfold validate.
  destruct (String.eqb_spec (server.nodeEnv (server c)) "production");
    [contradiction | reflexivity].
Qed.

Lemma validate_production (c : Config) :
  server.nodeEnv (server c) = "production" ->
  (exists e, validate c = Throw e) <->
  (jwt.secret (jwt c) = JWT_PLACEHOLDER \/
   database.password (database c) = "" \/
   database.password (database c) = "postgres").
Proof.
  intros H. unfold validate. rewrite H. simpl.
  destruct (String.eqb_spec (jwt.secret (jwt c)) JWT_PLACEHOLDER) as [Hs | Hs].
  - split; [tauto | eauto].
  - destruct (String.eqb_spec (database.password (database c)) "") as [Hp | Hp];
      simpl.
    + split; [tauto | eauto].
    + destruct (String.eqb_spec (database.password (database c)) "postgres")
        as [Hq | Hq].
      * split; [tauto | eauto].
      * split; [intros [e He]; discriminate | tauto].
Qed.

Lemma load_throw_validate (env : Env) (e : Error) :
  load env = Throw e <-> validate (config env) = Throw e.
Proof.
  unfold load. destruct (validate (config env)); split; congruence.
Qed.

(** Because the password is read with [||], the configured database
    password is never the empty string. *)
Lemma database_password_not_empty (env : Env) :
  database.password (database (config env)) <> "".
Proof.
  simpl. unfold or_else. destruct (env !! "DB_PASSWORD") as [s |]; [| discriminate].
  destruct (String.eqb_spec s ""); [discriminate | assumption].
Qed.

(** [dotenv] keeps a variable that the process environment already has. *)
Lemma dotenv_keeps_set (file : option Env) (env : Env) (var value : string) :
  env !! var = Some value -> dotenv_config file env !! var = Some value.
Proof.
  intros H. destruct file as [vars |]; simpl; [| exact H].
  now apply lookup_union_Some_l.
Qed.

(** *** The configuration object *)

(** C5, as amended: for every process environment, each field of [config]
    is the parse of its environment variable when that variable is set to
    a non-empty string, and the fixed default when the variable is unset
    or set to the empty string (numeric fields are parsed with
    [parseInt(_, 10)], the default being the parse of the default literal);
    [cors.credentials] is true exactly when CORS_CREDENTIALS is the string
    "true". *)
Theorem config_reads_environment (env : Env) :
  let c := config env in
  reads env "NODE_ENV" id "development" (server.nodeEnv (server c)) /\
  reads env "PORT" parseInt (Num 3000) (server.port (server c)) /\
  reads env "API_PREFIX" id "/api" (server.apiPrefix (server c)) /\
  reads env "DB_HOST" id "localhost" (database.host (database c)) /\
  reads env "DB_PORT" parseInt (Num 5432) (database.port (database c)) /\
  reads env "DB_NAME" id "ward_manager" (database.name (database c)) /\
  reads env "DB_USER" id "postgres" (database.user (database c)) /\
  reads env "DB_PASSWORD" id "postgres" (database.password (database c)) /\
  reads env "DB_POOL_MIN" parseInt (Num 2) (database.poolMin (database c)) /\
  reads env "DB_POOL_MAX" parseInt (Num 10) (database.poolMax (database c)) /\
  reads env "REDIS_HOST" id "localhost" (redis.host (redis c)) /\
  reads env "REDIS_PORT" parseInt (Num 6379) (redis.port (redis c)) /\
  reads env "REDIS_PASSWORD" id "" (redis.password (redis c)) /\
  reads env "REDIS_DB" parseInt (Num 0) (redis.db (redis c)) /\
  reads env "JWT_SECRET" id JWT_PLACEHOLDER (jwt.secret (jwt c)) /\
  reads env "JWT_EXPIRES_IN" id "30m" (jwt.expiresIn (jwt c)) /\
  reads env "JWT_REFRESH_EXPIRES_IN" id "7d" (jwt.refreshExpiresIn (jwt c)) /\
  reads env "SESSION_TIMEOUT_MINUTES" parseInt (Num 30)
    (session.timeoutMinutes (session c)) /\
  reads env "SESSION_WARNING_MINUTES" parseInt (Num 5)
    (session.warningMinutes (session c)) /\
  reads env "SESSION_MAX_DURATION_HOURS" parseInt (Num 12)
    (session.maxDurationHours (session c)) /\
  reads env "BCRYPT_ROUNDS" parseInt (Num 12)
    (security.bcryptRounds (security c)) /\
  reads env "MAX_LOGIN_ATTEMPTS" parseInt (Num 5)
    (security.maxLoginAttempts (security c)) /\
  reads env "LOCKOUT_DURATION_MINUTES" parseInt (Num 15)
    (security.lockoutDurationMinutes (security c)) /\
  reads env "RATE_LIMIT_WINDOW_MINUTES" parseInt (Num 1)
    (security.rateLimitWindowMinutes (security c)) /\
  reads env "RATE_LIMIT_MAX_REQUESTS" parseInt (Num 100)
    (security.rateLimitMaxRequests (security c)) /\
  reads env "AUTH_RATE_LIMIT_WINDOW_MINUTES" parseInt (Num 15)
    (security.authRateLimitWindowMinutes (security c)) /\
  reads env "AUTH_RATE_LIMIT_MAX_ATTEMPTS" parseInt (Num 5)
    (security.authRateLimitMaxAttempts (security c)) /\
  reads env "CORS_ORIGIN" id "http://localhost:5173" (cors.origin (cors c)) /\
  (cors.credentials (cors c) = true <->
   env !! "CORS_CREDENTIALS" = Some "true") /\
  reads env "LOG_LEVEL" id "info" (logging.level (logging c)) /\
  reads env "LOG_FILE_PATH" id "./logs/app.log" (logging.filePath (logging c)).
Proof.
  cbv zeta.
  repeat match goal with
         | |- _ /\ _ => split
         | |- reads _ ?var parseInt _ (_ (_ (config _))) =>
             exact (reads_or_else env var parseInt _)
         | |- reads _ ?var id _ (_ (_ (config _))) =>
             exact (reads_or_else env var id _)
         | |- _ <-> _ => apply strict_eq_true
         end.
Qed.

(** C5, as stated, fails: with PORT set to the empty string the variable is
    set, so the claim gives [parseInt("")], which is NaN, while [config]
    takes the default 3000. *)
Lemma config_empty_variable_takes_default :
  let env : Env := {[ "PORT" := "" ]} in
  env !! "PORT" = Some "" /\
  server.port (server (config env)) = Num 3000 /\
  parse_or_default parseInt (Num 3000) (env !! "PORT") = NaN /\
  server.port (server (config env))
    <> parse_or_default parseInt (Num 3000) (env !! "PORT").
Proof.
  cbv zeta. repeat split; try (vm_compute; reflexivity).
  vm_compute. discriminate.
Qed.

(** C6: when [config.server.nodeEnv] is "production", loading the
    configuration throws iff the JWT secret is the placeholder or the
    database password is empty or "postgres"; in any other environment
    loading does not throw and yields the configuration object. *)
Theorem load_throws_iff (env : Env) :
  let c := config env in
  (server.nodeEnv (server c) = "production" ->
   ((exists e, load env = Throw e) <->
    (jwt.secret (jwt c) = JWT_PLACEHOLDER \/
     database.password (database c) = "" \/
     database.password (database c) = "postgres"))) /\
  (server.nodeEnv (server c) <> "production" -> load env = Normal c).
Proof.
  cbv zeta. split.
  - intros Hprod. rewrite <- (validate_production _ Hprod).
    split; intros [e He]; exists e; now apply load_throw_validate.
  - intros Hdev. unfold load. now rewrite validate_non_production.
Qed.

Lemma load_throws_iff_witness :
  (exists e, load {[ "NODE_ENV" := "production" ]} = Throw e) /\
  load {[ "NODE_ENV" := "staging" ]} = Normal (config {[ "NODE_ENV" := "staging" ]}).
Proof.
  split.
  - apply (proj1 (load_throws_iff {[ "NODE_ENV" := "production" ]})).
    + vm_compute. reflexivity.
    + left. vm_compute. reflexivity.
  - apply (proj2 (load_throws_iff {[ "NODE_ENV" := "staging" ]})).
    vm_compute. discriminate.
Defined.

End ConfigFacts.

(** ** The connection wrappers *)

Module WrapperFacts.

Ltac run :=
  unfold Database.getClient, Database.query, Database.getPool,
    Database.disconnect, Database.require_pool,
    RedisClient.getClient, RedisClient.set, RedisClient.get, RedisClient.del,
    RedisClient.exists_, RedisClient.expire, RedisClient.disconnect,
    RedisClient.require_client,
    Eff.bind, Eff.get_this, Eff.set_this, Eff.throw, Eff.ret, Eff.read,
    Eff.try_catch, Eff.log, Eff.call;
  simpl.

Section Database.
Context {World : Type} `{RT : Runtime World} `{PG : Pg.Api World}.

Abbreviation DbState := (State World Database.Database).

Lemma require_pool_none (s : DbState) :
  Database.pool (this s) = None ->
  Database.require_pool s = (Throw (new_Error Database.NOT_INITIALIZED), s).
Proof. intros H. run. now rewrite H. Qed.

Lemma require_pool_some (s : DbState) (p : Pg.Pool) :
  Database.pool (this s) = Some p ->
  Database.require_pool s = (Normal p, s).
Proof. intros H. run. now rewrite H. Qed.

(** A guarded method: nothing after the guard runs when it throws. *)
Lemma guarded_none {A : Type} (k : Pg.Pool -> Eff World Database.Database A)
    (s : DbState) :
  Database.pool (this s) = None ->
  Eff.bind Database.require_pool k s
  = (Throw (new_Error Database.NOT_INITIALIZED), s).
Proof. intros H. unfold Eff.bind at 1. now rewrite require_pool_none. Qed.

Lemma db_disconnect_none (s : DbState) :
  Database.pool (this s) = None -> Database.disconnect s = (Normal tt, s).
Proof. intros H. run. now rewrite H. Qed.

Lemma db_disconnect_returns (s s' : DbState) :
  Database.disconnect s = (Normal tt, s') -> Database.pool (this s') = None.
Proof.
  run. destruct (Database.pool (this s)) as [p |] eqn:E.
  - destruct (Pg.Pool_end p (world s)) as [[[] | e] w]; intros [= <-];
      reflexivity.
  - now intros [= <-].
Qed.

Lemma db_disconnect_twice (s : DbState) :
  Eff.bind Database.disconnect (fun _ => Database.disconnect) s
  = Database.disconnect s.
Proof.
  run. destruct (Database.pool (this s)) as [p |] eqn:E.
  - destruct (Pg.Pool_end p (world s)) as [[[] | e] w]; reflexivity.
  - now rewrite E.
Qed.

End Database.

Section Redis.
Context {World : Type} `{RD : RedisLib.Api World}.

Abbreviation RedisState := (State World RedisClient.RedisClient).

Lemma require_client_none (s : RedisState) :
  RedisClient.client (this s) = None ->
  RedisClient.require_client s
  = (Throw (new_Error RedisClient.NOT_INITIALIZED), s).
Proof. intros H. run. now rewrite H. Qed.

Lemma client_guarded_none {A : Type}
    (k : RedisLib.RedisClientType -> Eff World RedisClient.RedisClient A)
    (s : RedisState) :
  RedisClient.client (this s) = None ->
  Eff.bind RedisClient.require_client k s
  = (Throw (new_Error RedisClient.NOT_INITIALIZED), s).
Proof. intros H. unfold Eff.bind at 1. now rewrite require_client_none. Qed.

Lemma redis_disconnect_none (s : RedisState) :
  RedisClient.client (this s) = None -> RedisClient.disconnect s = (Normal tt, s).
Proof. intros H. run. now rewrite H. Qed.

Lemma redis_disconnect_returns (s s' : RedisState) :
  RedisClient.disconnect s = (Normal tt, s') ->
  RedisClient.client (this s') = None.
Proof.
  run. destruct (RedisClient.client (this s)) as [c |] eqn:E.
  - destruct (RedisLib.quit c (world s)) as [[r | e] w]; intros [= <-];
      reflexivity.
  - now intros [= <-].
Qed.

Lemma redis_disconnect_twice (s : RedisState) :
  Eff.bind RedisClient.disconnect (fun _ => RedisClient.disconnect) s
  = RedisClient.disconnect s.
Proof.
  run. destruct (RedisClient.client (this s)) as [c |] eqn:E.
  - destruct (RedisLib.quit c (world s)) as [[r | e] w]; reflexivity.
  - now rewrite E.
Qed.

End Redis.

Section Both.
Context {World : Type} `{RT : Runtime World} `{PG : Pg.Api World}
  `{RD : RedisLib.Api World}.

(** C7: every public operation of the Database wrapper (getClient, query,
    getPool) and of the Redis wrapper (getClient, set, get, del, exists,
    expire), called while no connection is held, throws the error saying
    that the pool (resp. client) is not initialized and leaves the state
    unchanged.  No connection is held by a new wrapper and after a
    disconnect that returned. *)
Theorem uninitialized_operations_throw :
  Database.pool Database.new = None /\
  RedisClient.client RedisClient.new = None /\
  (forall s s' : State World Database.Database,
     Database.disconnect s = (Normal tt, s') -> Database.pool (this s') = None) /\
  (forall s s' : State World RedisClient.RedisClient,
     RedisClient.disconnect s = (Normal tt, s') ->
     RedisClient.client (this s') = None) /\
  (forall s : State World Database.Database,
     Database.pool (this s) = None ->
     let msg := "Database pool not initialized. Call connect() first." in
     rejects Database.getClient s msg /\
     (forall text params, rejects (Database.query text params) s msg) /\
     rejects Database.getPool s msg) /\
  (forall s : State World RedisClient.RedisClient,
     RedisClient.client (this s) = None ->
     let msg := "Redis client not initialized. Call connect() first." in
     rejects RedisClient.getClient s msg /\
     (forall key value expirationSeconds,
        rejects (RedisClient.set key value expirationSeconds) s msg) /\
     (forall key, rejects (RedisClient.get key) s msg) /\
     (forall key, rejects (RedisClient.del key) s msg) /\
     (forall key, rejects (RedisClient.exists_ key) s msg) /\
     (forall key seconds, rejects (RedisClient.expire key seconds) s msg)).
Proof.
  split; [reflexivity |]. split; [reflexivity |].
  split; [exact db_disconnect_returns |].
  split; [exact redis_disconnect_returns |].
  split.
  - intros s H. cbv zeta. unfold rejects. repeat split; intros.
    + now apply guarded_none.
    + now apply guarded_none.
    + now apply require_pool_none.
  - intros s H. cbv zeta. unfold rejects. repeat split; intros;
      first [ now apply require_client_none | now apply client_guarded_none ].
Qed.

(** C8: disconnect is idempotent on both wrappers.  Called while no
    connection is held it returns without throwing and changes nothing;
    when it returns, the handle is null; and calling it twice in sequence
    has the same outcome and final state as calling it once. *)
Theorem disconnect_idempotent :
  (forall s : State World Database.Database,
     Database.pool (this s) = None -> Database.disconnect s = (Normal tt, s)) /\
  (forall s s' : State World Database.Database,
     Database.disconnect s = (Normal tt, s') ->
     Database.pool (this s') = None /\ Database.disconnect s' = (Normal tt, s')) /\
  (forall s : State World Database.Database,
     Eff.bind Database.disconnect (fun _ => Database.disconnect) s
     = Database.disconnect s) /\
  (forall s : State World RedisClient.RedisClient,
     RedisClient.client (this s) = None ->
     RedisClient.disconnect s = (Normal tt, s)) /\
  (forall s s' : State World RedisClient.RedisClient,
     RedisClient.disconnect s = (Normal tt, s') ->
     RedisClient.client (this s') = None /\
     RedisClient.disconnect s' = (Normal tt, s')) /\
  (forall s : State World RedisClient.RedisClient,
     Eff.bind RedisClient.disconnect (fun _ => RedisClient.disconnect) s
     = RedisClient.disconnect s).
Proof.
  split; [exact db_disconnect_none |].
  split.
  { intros s s' H. pose proof (db_disconnect_returns _ _ H) as Hn.
    split; [exact Hn | now apply db_disconnect_none]. }
  split; [exact db_disconnect_twice |].
  split; [exact redis_disconnect_none |].
  split.
  { intros s s' H. pose proof (redis_disconnect_returns _ _ H) as Hn.
    split; [exact Hn | now apply redis_disconnect_none]. }
  exact redis_disconnect_twice.
Qed.

End Both.

(** *** The wrappers on the simulated libraries *)

Import Sim.

Example sim_connect_then_query :
  let s0 := Sim.fresh Database.new in
  let '(_, s1) := Database.connect (ConfigModule.config ∅) s0 in
  Database.pool (this s1) = Some Sim.the_pool /\
  fst (Database.query "SELECT 1" None s1) = Normal [].
Proof. vm_compute. split; reflexivity. Qed.

Example sim_query_logs_duration :
  let s1 := mkState {| Database.pool := Some Sim.the_pool |} [] 5%nat in
  logged (snd (Database.query "SELECT 1" None s1))
  = [Logger.mkEntry Logger.Debug "Executed query"
       (Logger.MetaObject [("text", Logger.VString "SELECT 1");
                           ("duration", Logger.VNumber 1000);
                           ("rows", Logger.VNumber 0)])].
Proof. vm_compute. reflexivity. Qed.

Lemma uninitialized_operations_throw_witness :
  Database.getPool (Sim.fresh Database.new)
  = (Throw (new_Error "Database pool not initialized. Call connect() first."),
     Sim.fresh Database.new) /\
  RedisClient.get "session:42" (Sim.fresh RedisClient.new)
  = (Throw (new_Error "Redis client not initialized. Call connect() first."),
     Sim.fresh RedisClient.new) /\
  Database.pool (this (snd (Database.disconnect
    (mkState {| Database.pool := Some Sim.the_pool |} [] 0%nat)))) = None.
Proof.
  pose proof (@uninitialized_operations_throw Sim.World Sim.runtime Sim.pg Sim.redis)
    as (_ & _ & Hdisc & _ & Hdb & Hredis).
  split; [| split].
  - apply (Hdb (Sim.fresh Database.new)). reflexivity.
  - apply (Hredis (Sim.fresh RedisClient.new)). reflexivity.
  - apply (Hdisc (mkState {| Database.pool := Some Sim.the_pool |} [] 0%nat)).
    reflexivity.
Defined.

Lemma disconnect_idempotent_witness :
  Database.disconnect (Sim.fresh Database.new)
  = (Normal tt, Sim.fresh Database.new) /\
  RedisClient.disconnect (Sim.fresh RedisClient.new)
  = (Normal tt, Sim.fresh RedisClient.new) /\
  RedisClient.client (this (snd (RedisClient.disconnect
    (mkState {| RedisClient.client := Some Sim.the_client |} [] 0%nat)))) = None.
Proof.
  pose proof (@disconnect_idempotent Sim.World Sim.pg Sim.redis)
    as (Hdb & _ & _ & Hredis & Hret & _).
  split; [| split].
  - apply (Hdb (Sim.fresh Database.new)). reflexivity.
  - apply (Hredis (Sim.fresh RedisClient.new)). reflexivity.
  - apply (Hret (mkState {| RedisClient.client := Some Sim.the_client |} [] 0%nat)).
    reflexivity.
Defined.

End WrapperFacts.

(** ** The HTTP application *)

Module AppFacts.
Import Express Sim.

Example sim_get_health :
  App.respond (ConfigModule.config ∅) GET_health (fresh tt)
  = (Sent {| status := 200;
             body := Some (JObject
               [("status", JString "ok");
                ("timestamp", JString "2024-01-01T00:00:00.000Z");
                ("uptime", JNumber 0)]) |},
     mkState tt
       [Logger.mkEntry Logger.Info "GET /health"
          (Logger.MetaObject [("ip", Logger.VString "127.0.0.1");
                              ("userAgent", Logger.VString "curl/8.0")])]
       0%nat).
Proof. vm_compute. reflexivity. Qed.

Example sim_get_users :
  fst (App.respond (ConfigModule.config ∅) GET_users (fresh tt))
  = Sent {| status := 404;
            body := Some (JObject [("error", JObject
              [("code", JString "NOT_FOUND");
               ("message", JString "The requested resource was not found");
               ("timestamp", JString "2024-01-01T00:00:00.000Z")])]) |}.
Proof. vm_compute. reflexivity. Qed.

Section Dispatch.
Context {World : Type}.

(** Running a stack made of two parts: the second part takes over where
    the first falls through. *)
Lemma handle_app (l1 l2 : Application World) :
  forall err req s,
    handle (l1 ++ l2)%list err req s
    = match handle l1 err req s with
      | (Sent res, s') => (Sent res, s')
      | (Unhandled err', s') => handle l2 err' req s'
      end.
Proof.
  induction l1 as [| layer l1 IH]; intros err req s; [reflexivity |].
  simpl.
  destruct layer as [h | h | verb pattern h], err as [e |]; try apply IH.
  - destruct (h req s) as [[[| e' | res] | e'] s']; simpl;
      first [apply IH | reflexivity].
  - destruct (h e req s) as [[[| e' | res] | e'] s']; simpl;
      first [apply IH | reflexivity].
  - destruct (handles_method verb (method req) && matches_path pattern (path req));
      [| apply IH].
    destruct (h req s) as [[[| e' | res] | e'] s']; simpl;
      first [apply IH | reflexivity].
Qed.

Lemma handles_get (m : string) :
  handles_method "get" m = true
  <-> toLowerCase m = "get" \/ toLowerCase m = "head".
Proof.
  unfold handles_method.
  destruct (String.eqb_spec (toLowerCase m) "head") as [E | E].
  - rewrite E. simpl. split; auto.
  - rewrite String.eqb_eq. split; [auto | intros [H | H]; congruence].
Qed.

Lemma matches_health (p : string) :
  matches_path "/health" p = true
  <-> toLowerCase p = "/health" \/ toLowerCase p = "/health/".
Proof.
  unfold matches_path. rewrite orb_true_iff, !String.eqb_eq. reflexivity.
Qed.

End Dispatch.

Section App.
Context {World : Type} `{RT : Runtime World} `{MW : Vendors.Middleware World}.
Variable config : Config.

Abbreviation St := (State World unit).

Lemma routed_to_health_spec (req : Request) :
  handles_method "get" (method req) && matches_path "/health" (path req) = true
  <-> App.routed_to_health req.
Proof.
  unfold App.routed_to_health.
  rewrite andb_true_iff, handles_get, matches_health. reflexivity.
Qed.

(** The three handlers of the source, run. *)

Lemma healthCheck_run (req : Request) (s : St) :
  App.healthCheck req s = (Normal (End_ (App.health_response s)), s).
Proof. reflexivity. Qed.

Lemma notFoundHandler_run (req : Request) (s : St) :
  App.notFoundHandler req s = (Normal (End_ (App.not_found_response s)), s).
Proof. reflexivity. Qed.

Lemma errorHandler_run (err : Error) (req : Request) (s : St) :
  App.errorHandler config err req s
  = (Normal (End_ (App.error_response config err s)),
     mkState (this s) (App.error_entry err req :: logged s) (world s)).
Proof. reflexivity. Qed.

(** The stack built by the constructor: the middleware, then the health
    route, the 404 handler and the error handler. *)
Lemma stack_layout :
  App.getApp (App.new config)
  = (App.initializeMiddleware config express
     ++ [Route "get" "/health" App.healthCheck;
         Use App.notFoundHandler;
         UseError (App.errorHandler config)])%list.
Proof. reflexivity. Qed.

(** What the application answers, by what the middleware did. *)
Lemma respond_cases (req : Request) (s : St) :
  App.respond config req s
  = match handle (App.initializeMiddleware config express) None req s with
    | (Sent res, s') => (Sent res, s')
    | (Unhandled None, s') =>
        if handles_method "get" (method req) && matches_path "/health" (path req)
        then (Sent (App.health_response s'), s')
        else (Sent (App.not_found_response s'), s')
    | (Unhandled (Some e), s') =>
        (Sent (App.error_response config e s'),
         mkState (this s') (App.error_entry e req :: logged s') (world s'))
    end.
Proof.
  unfold App.respond. rewrite stack_layout, handle_app.
  destruct (handle (App.initializeMiddleware config express) None req s)
    as [[res | [e |]] s']; [reflexivity | reflexivity |].
  simpl.
  destruct (handles_method "get" (method req) && matches_path "/health" (path req));
    reflexivity.
Qed.

(** Every request routed to the health check that reaches the routes is
    served by it. *)
Lemma routed_requests_served (req : Request) (s s' : St) :
  App.reaches_routes config req s s' ->
  App.routed_to_health req ->
  App.respond config req s = (Sent (App.health_response s'), s').
Proof.
  intros Hreach Hrouted. apply routed_to_health_spec in Hrouted.
  now rewrite respond_cases, Hreach, Hrouted.
Qed.

(** A request on which a middleware raised an error is answered by the
    global error handler. *)
Lemma failed_requests_get_500 (req : Request) (s s' : St) (e : Error) :
  handle (App.initializeMiddleware config express) None req s
  = (Unhandled (Some e), s') ->
  App.respond config req s
  = (Sent (App.error_response config e s'),
     mkState (this s') (App.error_entry e req :: logged s') (world s')).
Proof. intros H. now rewrite respond_cases, H. Qed.

Lemma not_found_is_envelope (s : St) :
  option_map is_error_envelope (body (App.not_found_response s)) = Some true.
Proof. reflexivity. Qed.

Lemma error_is_envelope (err : Error) (s : St) :
  option_map is_error_envelope (body (App.error_response config err s)) = Some true.
Proof. reflexivity. Qed.

(** C1, as amended: every GET request to /health that reaches the routes
    (helmet, cors, the body parsers and the request logger each pass it on
    without an error) is answered with status 200 and the JSON body
    { status: 'ok', timestamp, uptime }, the timestamp and the uptime being
    read when the handler runs. *)
Theorem health_check_ok (req : Request) (s s' : St) :
  App.reaches_routes config req s s' ->
  method req = "GET" ->
  path req = "/health" ->
  App.respond config req s
  = (Sent {| status := 200;
             body := Some (JObject
               [("status", JString "ok");
                ("timestamp", JString (Date_toISOString (world s')));
                ("uptime", JNumber (process_uptime (world s')))]) |},
     s').
Proof.
  intros Hreach Hm Hp. rewrite respond_cases, Hreach, Hm, Hp. reflexivity.
Qed.

(** C2, as amended: the health check is the only registered route, and
    every request that reaches the routes and is not routed to it (it is
    routed to it when the method is GET or HEAD and the path is /health in
    any letter case, with or without a trailing slash) is answered with
    status 404 and the error code 'NOT_FOUND'. *)
Theorem unrouted_requests_not_found (req : Request) (s s' : St) :
  App.reaches_routes config req s s' ->
  ~ App.routed_to_health req ->
  App.initializeRoutes express = [Route "get" "/health" App.healthCheck] /\
  App.respond config req s
  = (Sent {| status := 404;
             body := Some (JObject [("error", JObject
               [("code", JString "NOT_FOUND");
                ("message", JString "The requested resource was not found");
                ("timestamp", JString (Date_toISOString (world s')))])]) |},
     s').
Proof.
  intros Hreach Hnot. split; [reflexivity |].
  rewrite respond_cases, Hreach.
  destruct (handles_method "get" (method req) && matches_path "/health" (path req))
    eqn:E; [| reflexivity].
  apply routed_to_health_spec in E. contradiction.
Qed.

(** C3: the responses of the 404 handler and of the global error handler
    have the shape { error: { code, message, timestamp } } with string
    members; and whenever the middleware did not end the response itself,
    the application answers 200 (the health check) or answers 404 or 500
    with a body of that shape. *)
Theorem error_responses_are_enveloped :
  (forall req s, exists res,
     App.notFoundHandler req s = (Normal (End_ res), s) /\
     status res = 404 /\
     option_map is_error_envelope (body res) = Some true) /\
  (forall err req s, exists res s',
     App.errorHandler config err req s = (Normal (End_ res), s') /\
     status res = 500 /\
     option_map is_error_envelope (body res) = Some true) /\
  (forall req s,
     (exists res s',
        handle (App.initializeMiddleware config express) None req s = (Sent res, s')) \/
     (exists res s',
        App.respond config req s = (Sent res, s') /\
        (status res = 200 \/
         ((status res = 404 \/ status res = 500) /\
          option_map is_error_envelope (body res) = Some true)))).
Proof.
  split; [| split].
  - intros req s. exists (App.not_found_response s).
    rewrite notFoundHandler_run. repeat split.
  - intros err req s. eexists _, _. rewrite errorHandler_run. repeat split.
  - intros req s. rewrite respond_cases.
    destruct (handle (App.initializeMiddleware config express) None req s)
      as [[res | [e |]] s'].
    + left. eauto.
    + right. eexists _, _. split; [reflexivity |]. right. split; [now right |].
      apply error_is_envelope.
    + right.
      destruct (handles_method "get" (method req) && matches_path "/health" (path req)).
      * eexists _, _. split; [reflexivity |]. now left.
      * eexists _, _. split; [reflexivity |]. right. split; [now left |].
        apply not_found_is_envelope.
Qed.

(** C4, as amended: for every error reaching the global error handler the
    response has status 500 and the error's message and stack and the
    request's path and method are handed to the logger; when
    config.server.nodeEnv is 'production' the client-visible message is
    the generic one, so that the response is the same for any two errors;
    in any other environment the client-visible message is the error's own
    message. *)
Theorem error_handler_behaviour (err : Error) (req : Request) (s : St) :
  exists res,
    App.errorHandler config err req s
    = (Normal (End_ res),
       mkState (this s)
         (Logger.mkEntry Logger.Error_ "Unhandled error:"
            (Logger.MetaObject
               [("error", Logger.VString (message err));
                ("stack", Logger.of_option (stack err));
                ("path", Logger.VString (path req));
                ("method", Logger.VString (method req))])
          :: logged s)
         (world s)) /\
    status res = 500 /\
    (server.nodeEnv (server config) = "production" ->
     App.client_message res = Some (JString "An internal server error occurred") /\
     forall err', fst (App.errorHandler config err' req s) = Normal (End_ res)) /\
    (server.nodeEnv (server config) <> "production" ->
     App.client_message res = Some (JString (message err))).
Proof.
  exists (App.error_response config err s).
  split; [apply errorHandler_run |]. split; [reflexivity |].
  split.
  - intros Hprod. split.
    + unfold App.client_message, App.error_response. simpl. now rewrite Hprod.
    + intros err'. rewrite errorHandler_run. unfold App.error_response.
      now rewrite Hprod.
  - intros Hdev. unfold App.client_message, App.error_response. simpl.
    destruct (String.eqb_spec (server.nodeEnv (server config)) "production");
      [contradiction | reflexivity].
Qed.

End App.

(** *** Concrete runs *)

(** C1, as stated, fails: a GET request to /health whose body the JSON
    body parser rejects never reaches the route; the parser's error goes
    to the global error handler, which answers 500. *)
Lemma health_check_behind_body_parser :
  method GET_health_bad_body = "GET" /\
  path GET_health_bad_body = "/health" /\
  exists res s',
    App.respond (ConfigModule.config ∅) GET_health_bad_body (fresh tt) = (Sent res, s') /\
    status res = 500 /\
    option_map (field "status") (body res) = Some None.
Proof.
  split; [reflexivity |]. split; [reflexivity |].
  eexists _, _. split; [vm_compute; reflexivity |]. split; reflexivity.
Qed.

(** C2, as stated, fails: a HEAD request to /health is not a GET request,
    yet the route registered with [app.get] serves it and the answer is
    200, not 404. *)
Lemma head_health_is_served :
  method HEAD_health <> "GET" /\
  exists res s',
    App.respond (ConfigModule.config ∅) HEAD_health (fresh tt) = (Sent res, s') /\
    status res = 200 /\
    status res <> 404.
Proof.
  split; [discriminate |].
  eexists _, _. split; [vm_compute; reflexivity |]. split; [reflexivity | discriminate].
Qed.

(** C4, as stated, fails: with the default environment (NODE_ENV unset,
    so 'development') the message sent to the client is the internal
    error's message, and two different errors give two different
    messages. *)
Lemma error_message_leaks_outside_production :
  let config := ConfigModule.config ∅ in
  let e1 := new_Error "connect ECONNREFUSED 10.0.0.5:5432" in
  let e2 := new_Error "password authentication failed for user postgres" in
  let message_for e :=
    match fst (App.errorHandler config e GET_users (fresh tt)) with
    | Normal (End_ res) => App.client_message res
    | _ => None
    end in
  message_for e1 = Some (JString "connect ECONNREFUSED 10.0.0.5:5432") /\
  message_for e2 = Some (JString "password authentication failed for user postgres") /\
  message_for e1 <> message_for e2.
Proof.
  cbv zeta. split; [vm_compute; reflexivity |]. split; [vm_compute; reflexivity |].
  vm_compute. discriminate.
Qed.

Lemma health_check_ok_witness :
  fst (App.respond (ConfigModule.config ∅) GET_health (fresh tt))
  = Sent {| status := 200;
            body := Some (JObject
              [("status", JString "ok");
               ("timestamp", JString "2024-01-01T00:00:00.000Z");
               ("uptime", JNumber 0)]) |}.
Proof.
  rewrite (health_check_ok (ConfigModule.config ∅) GET_health (fresh tt)
             (mkState tt
                [Logger.mkEntry Logger.Info "GET /health"
                   (Logger.MetaObject [("ip", Logger.VString "127.0.0.1");
                                       ("userAgent", Logger.VString "curl/8.0")])]
                0%nat)).
  - reflexivity.
  - vm_compute. reflexivity.
  - reflexivity.
  - reflexivity.
Defined.

Lemma unrouted_requests_not_found_witness :
  exists s',
    App.respond (ConfigModule.config ∅) GET_users (fresh tt)
    = (Sent (App.not_found_response s'), s').
Proof.
  eexists.
  apply (unrouted_requests_not_found (ConfigModule.config ∅) GET_users (fresh tt)).
  - vm_compute. reflexivity.
  - intros [_ [H | H]]; vm_compute in H; discriminate.
Defined.

Lemma error_handler_behaviour_witness :
  exists res,
    fst (App.errorHandler (ConfigModule.config {[ "NODE_ENV" := "production";
                                                  "JWT_SECRET" := "s3cret";
                                                  "DB_PASSWORD" := "hunter2" ]})
           (new_Error "connect ECONNREFUSED 10.0.0.5:5432") GET_users (fresh tt))
    = Normal (End_ res) /\
    App.client_message res = Some (JString "An internal server error occurred").
Proof.
  destruct (error_handler_behaviour
              (ConfigModule.config {[ "NODE_ENV" := "production";
                                      "JWT_SECRET" := "s3cret";
                                      "DB_PASSWORD" := "hunter2" ]})
              (new_Error "connect ECONNREFUSED 10.0.0.5:5432") GET_users (fresh tt))
    as (res & Hrun & _ & Hprod & _).
  exists res. split.
  - now rewrite Hrun.
  - apply Hprod. vm_compute. reflexivity.
Defined.

End AppFacts.

(** ** The session manager *)

Module SessionFacts.
Import SessionManager.

Import Sim.

Example validate_live :
  validate default_policy 1000 {[ "t-alice" := alice ]} "t-alice" = inl alice.
Proof. vm_compute. reflexivity. Qed.

Example validate_idle_expired :
  validate default_policy (half_hour + 1) {[ "t-alice" := alice ]} "t-alice"
  = inr Expired.
Proof. vm_compute. reflexivity. Qed.

Example validate_unknown :
  validate default_policy 1000 {[ "t-alice" := alice ]} "t-bob" = inr Invalid.
Proof. vm_compute. reflexivity. Qed.

Example renew_extends :
  match fst (renew default_policy 1000 {[ "t-alice" := alice ]} "t-alice") with
  | inl sess => expiresAt sess = 1000 + half_hour
  | inr _ => False
  end.
Proof. vm_compute. reflexivity. Qed.

Lemma validate_known (p : Policy) (now : Z) (store : Store) (tok : string)
    (sess : Session) :
  store !! tok = Some sess ->
  validate p now store tok
  = if (now <=? expiresAt sess) && (now <=? ceiling p sess)
    then inl sess else inr Expired.
Proof.
  intros H. unfold validate, ceiling. rewrite H.
  destruct (Z.gtb_spec now (expiresAt sess)),
           (Z.gtb_spec now (createdAt sess + maxDuration p)),
           (Z.leb_spec now (expiresAt sess)),
           (Z.leb_spec now (createdAt sess + maxDuration p));
    simpl; try reflexivity; lia.
Qed.

Lemma validate_inl (p : Policy) (now : Z) (store : Store) (tok : string)
    (sess : Session) :
  validate p now store tok = inl sess ->
  store !! tok = Some sess /\ now <= expiresAt sess /\ now <= ceiling p sess.
Proof.
  unfold validate, ceiling.
  destruct (store !! tok) as [sess0 |]; [| discriminate].
  destruct (Z.gtb_spec now (expiresAt sess0)); [discriminate |].
  destruct (Z.gtb_spec now (createdAt sess0 + maxDuration p)); [discriminate |].
  intros [= ->]. repeat split; lia.
Qed.

Lemma renew_failure (p : Policy) (now : Z) (store : Store) (tok : string)
    (failure : Failure) :
  validate p now store tok = inr failure ->
  renew p now store tok = (inr failure, store).
Proof. intros H. unfold renew. now rewrite H. Qed.

Lemma renew_capped (p : Policy) (now : Z) (store : Store) (tok : string) :
  capped p store -> capped p (snd (renew p now store tok)).
Proof.
  intros Hcap. unfold renew.
  destruct (validate p now store tok) as [sess | failure]; [| exact Hcap].
  simpl. intros tok' sess'. rewrite lookup_insert.
  destruct (decide (tok = tok')) as [-> | Hne].
  - intros [= <-]. unfold ceiling. simpl. lia.
  - apply Hcap.
Qed.

(** C9: for a session stored under its token, validate(token) succeeds
    (and returns that session) iff now <= expiresAt and
    now <= createdAt + maxDuration, and fails as expired otherwise; the
    ceiling applies whatever the expiry says; for an unknown token it
    fails as invalid. *)
Theorem validate_succeeds_iff (p : Policy) (now : Z) (store : Store)
    (tok : string) :
  (forall sess, store !! tok = Some sess ->
     (validate p now store tok = inl sess <->
      now <= expiresAt sess /\ now <= createdAt sess + maxDuration p) /\
     (validate p now store tok = inl sess \/
      validate p now store tok = inr Expired) /\
     (now > createdAt sess + maxDuration p ->
      validate p now store tok = inr Expired)) /\
  (store !! tok = None -> validate p now store tok = inr Invalid).
Proof.
  split.
  - intros sess H. rewrite (validate_known _ _ _ _ _ H). unfold ceiling.
    destruct (Z.leb_spec now (expiresAt sess)),
             (Z.leb_spec now (createdAt sess + maxDuration p)); simpl;
      (split; [split; [intros; try discriminate; lia | intros; try reflexivity; lia]
              | split; [auto | intros; try reflexivity; lia]]).
  - intros H. unfold validate. now rewrite H.
Qed.

Lemma validate_succeeds_iff_witness :
  validate default_policy 1000 {[ "t-alice" := alice ]} "t-alice" = inl alice /\
  validate default_policy (twelve_hours + 1)
    {[ "t-alice" := session_of 0 twelve_hours (twelve_hours + half_hour) ]}
    "t-alice"
  = inr Expired /\
  validate default_policy 1000 {[ "t-alice" := alice ]} "t-bob" = inr Invalid.
Proof.
  split; [| split].
  - apply (proj1 (validate_succeeds_iff default_policy 1000
                    {[ "t-alice" := alice ]} "t-alice") alice).
    + vm_compute. reflexivity.
    + vm_compute. split; discriminate.
  - apply (proj1 (validate_succeeds_iff default_policy (twelve_hours + 1) _ "t-alice")
             (session_of 0 twelve_hours (twelve_hours + half_hour))).
    + vm_compute. reflexivity.
    + vm_compute. reflexivity.
  - apply (proj2 (validate_succeeds_iff default_policy 1000
                    {[ "t-alice" := alice ]} "t-bob")).
    vm_compute. reflexivity.
Defined.

(** C10: a call to renew(token) either fails, on an unknown token or an
    already expired session, and then changes nothing; or succeeds, and
    then the session stored under the token keeps its createdAt and has
    expiresAt = now + idleTimeout, cut down to the ceiling
    createdAt + maxDuration when it would pass it.  In both cases
    expiresAt <= createdAt + maxDuration holds of every session after the
    call if it held before. *)
Theorem renew_respects_ceiling (p : Policy) (now : Z) (store : Store)
    (tok : string) :
  match renew p now store tok with
  | (inl sess', store') =>
      exists sess,
        validate p now store tok = inl sess /\
        store' = <[tok := sess']> store /\
        createdAt sess' = createdAt sess /\
        expiresAt sess' = Z.min (now + idleTimeout p) (createdAt sess + maxDuration p) /\
        expiresAt sess' <= now + idleTimeout p /\
        expiresAt sess' <= createdAt sess' + maxDuration p
  | (inr failure, store') =>
      validate p now store tok = inr failure /\ store' = store
  end /\
  (capped p store -> capped p (snd (renew p now store tok))).
Proof.
  split; [| apply renew_capped].
  unfold renew.
  destruct (validate p now store tok) as [sess | failure] eqn:E.
  - exists sess. unfold ceiling. simpl. repeat split; lia.
  - split; reflexivity.
Qed.

Lemma renew_respects_ceiling_witness :
  capped default_policy
    (snd (renew default_policy (twelve_hours - 1000)
            {[ "t-alice" := session_of 0 (twelve_hours - 2000) twelve_hours ]}
            "t-alice")).
Proof.
  apply (proj2 (renew_respects_ceiling default_policy (twelve_hours - 1000) _ "t-alice")).
  intros tok sess. rewrite lookup_singleton.
  destruct (decide ("t-alice" = tok)); [| discriminate].
  intros [= <-]. vm_compute. discriminate.
Defined.

Example renew_near_ceiling :
  match fst (renew default_policy (twelve_hours - 1000)
            {[ "t-alice" := session_of 0 (twelve_hours - 2000) twelve_hours ]}
            "t-alice") with
  | inl sess => expiresAt sess = twelve_hours
  | inr _ => False
  end.
Proof. vm_compute. reflexivity. Qed.

End SessionFacts.

(** ** More on the configuration loader *)

Module ConfigMore.
Import ConfigModule.

(** A setting read with [||] differs from its default exactly when the
    variable is set to a non-empty string other than the default. *)
Lemma or_else_not_default (v : option string) (d : string) :
  or_else v d <> d <-> exists s, v = Some s /\ s <> "" /\ s <> d.
Proof.
  unfold or_else. destruct v as [s |].
  - destruct (String.eqb_spec s "") as [-> | Hs].
    + split; [congruence | intros (s' & [= <-] & Hne & _); congruence].
    + split.
      * intros Hd. exists s. auto.
      * intros (s' & [= <-] & _ & Hd). exact Hd.
  - split; [congruence | intros (s & [=] & _)].
Qed.

Lemma or_else_not_empty (v : option string) (d : string) :
  d <> "" -> or_else v d <> "".
Proof.
  intros Hd. unfold or_else. destruct v as [s |]; [| exact Hd].
  destruct (String.eqb_spec s ""); assumption.
Qed.

Lemma load_normal_iff (env : Env) :
  (exists c, load env = Normal c) <-> validate (config env) = Normal tt.
Proof.
  unfold load. destruct (validate (config env)) as [[] | e].
  - split; eauto.
  - split; [intros [c H]; discriminate | discriminate].
Qed.

(** X1: in production, in terms of the environment itself: loading
    succeeds iff JWT_SECRET is set to a non-empty string other than the
    placeholder and DB_PASSWORD is set to a non-empty string other than
    "postgres".  Leaving either variable unset or empty makes the load
    throw. *)
Theorem production_needs_both_secrets (env : Env) :
  env !! "NODE_ENV" = Some "production" ->
  (exists c, load env = Normal c) <->
  (exists s, env !! "JWT_SECRET" = Some s /\ s <> "" /\ s <> JWT_PLACEHOLDER) /\
  (exists p, env !! "DB_PASSWORD" = Some p /\ p <> "" /\ p <> "postgres").
Proof.
  intros Hprod. rewrite load_normal_iff.
  rewrite <- !or_else_not_default.
  change (or_else (env !! "JWT_SECRET") JWT_PLACEHOLDER)
    with (jwt.secret (jwt (config env))).
  change (or_else (env !! "DB_PASSWORD") "postgres")
    with (database.password (database (config env))).
  assert (Hnode : server.nodeEnv (server (config env)) = "production")
    by (simpl; now rewrite Hprod).
  pose proof (ConfigFacts.validate_production _ Hnode) as Hthrow.
  split.
  - intros Hok. split; intros Hbad.
    + destruct (proj2 Hthrow (or_introl Hbad)) as [e He]. congruence.
    + destruct (proj2 Hthrow (or_intror (or_intror Hbad))) as [e He]. congruence.
  - intros [Hs Hp]. destruct (validate (config env)) as [[] | e] eqn:E;
      [reflexivity |].
    destruct (proj1 Hthrow (ex_intro _ e eq_refl)) as [H | [H | H]];
      [contradiction | | contradiction].
    exfalso. revert H. apply ConfigFacts.database_password_not_empty.
Qed.

Lemma production_needs_both_secrets_witness :
  (exists c, load {[ "NODE_ENV" := "production"; "JWT_SECRET" := "s3cret";
                     "DB_PASSWORD" := "hunter2" ]} = Normal c).
Proof.
  apply production_needs_both_secrets.
  - vm_compute. reflexivity.
  - split.
    + exists "s3cret". split; [vm_compute; reflexivity |].
      split; discriminate.
    + exists "hunter2". split; [vm_compute; reflexivity |].
      split; discriminate.
Defined.

(** X2: the secret is checked before the password.  Whenever loading
    throws, the environment is production and the error is the JWT_SECRET
    one if the secret is the placeholder, whatever the password; the
    DB_PASSWORD error is thrown only when the secret is acceptable. *)
Theorem validation_reports_secret_first (env : Env) (e : Error) :
  load env = Throw e ->
  server.nodeEnv (server (config env)) = "production" /\
  ((jwt.secret (jwt (config env)) = JWT_PLACEHOLDER /\
    message e = "JWT_SECRET must be set in production environment") \/
   (jwt.secret (jwt (config env)) <> JWT_PLACEHOLDER /\
    database.password (database (config env)) = "postgres" /\
    message e = "DB_PASSWORD must be set securely in production environment")).
Proof.
  intros H. apply ConfigFacts.load_throw_validate in H. revert H.
  unfold validate.
  destruct (String.eqb_spec (server.nodeEnv (server (config env))) "production")
    as [Hprod | Hdev]; [| discriminate].
  intros H. split; [exact Hprod |]. revert H.
  destruct (String.eqb_spec (jwt.secret (jwt (config env))) JWT_PLACEHOLDER)
    as [Hs | Hs]; intros H.
  - left. injection H as <-. auto.
  - right.
    destruct (String.eqb_spec (database.password (database (config env))) "")
      as [Hp | Hp].
    + exfalso. revert Hp. apply ConfigFacts.database_password_not_empty.
    + destruct (String.eqb_spec (database.password (database (config env)))
                  "postgres") as [Hq | Hq]; simpl in H; [| discriminate H].
      injection H as <-. auto.
Qed.

Lemma validation_reports_secret_first_witness :
  message (new_Error "JWT_SECRET must be set in production environment")
  = "JWT_SECRET must be set in production environment".
Proof.
  destruct (validation_reports_secret_first
              {[ "NODE_ENV" := "production"; "DB_PASSWORD" := "postgres" ]}
              (new_Error "JWT_SECRET must be set in production environment"))
    as [_ [[_ H] | [Hne _]]].
  - vm_compute. reflexivity.
  - exact H.
  - exfalso. apply Hne. vm_compute. reflexivity.
Defined.

(** X3: whether loading throws, and with which error, depends on three
    variables only: two environments that agree on NODE_ENV, JWT_SECRET
    and DB_PASSWORD both load or both throw the same error.  No other
    setting (a port that is not a number, say) is ever rejected. *)
Theorem load_depends_on_three_variables (env1 env2 : Env) :
  env1 !! "NODE_ENV" = env2 !! "NODE_ENV" ->
  env1 !! "JWT_SECRET" = env2 !! "JWT_SECRET" ->
  env1 !! "DB_PASSWORD" = env2 !! "DB_PASSWORD" ->
  match load env1, load env2 with
  | Normal c1, Normal c2 => c1 = config env1 /\ c2 = config env2
  | Throw e1, Throw e2 => e1 = e2
  | _, _ => False
  end.
Proof.
  intros Hn Hs Hp.
  assert (Hv : validate (config env1) = validate (config env2)).
  { unfold validate. simpl. now rewrite Hn, Hs, Hp. }
  unfold load. rewrite Hv.
  destruct (validate (config env2)) as [[] | e]; auto.
Qed.

Lemma load_depends_on_three_variables_witness :
  load {[ "PORT" := "not a number" ]}
  = Normal (config {[ "PORT" := "not a number" ]}).
Proof.
  assert (H := load_depends_on_three_variables {[ "PORT" := "not a number" ]} ∅
                 eq_refl eq_refl eq_refl).
  destruct (load {[ "PORT" := "not a number" ]}) as [c1 | e1],
           (load ∅) as [c2 | e2] eqn:E2.
  - destruct H as [-> _]. reflexivity.
  - contradiction.
  - contradiction.
  - vm_compute in E2. discriminate E2.
Defined.

Example unparsable_port_is_kept :
  server.port (server (config {[ "PORT" := "not a number" ]})) = NaN.
Proof. vm_compute. reflexivity. Qed.

(** X4: precedence between the process environment and the [.env] file,
    for any setting read with [||]: a variable the process environment
    has, even set to the empty string, is read from there and the file's
    value is ignored; only a variable the process environment lacks is
    read from the file. *)
Theorem dotenv_precedence (file env : Env) (var d : string) :
  or_else (dotenv_config (Some file) env !! var) d
  = match env !! var with
    | Some v => or_else (Some v) d
    | None => or_else (file !! var) d
    end.
Proof.
  unfold dotenv_config.
  destruct (env !! var) as [v |] eqn:E.
  - now rewrite (lookup_union_Some_l env file var v E).
  - now rewrite lookup_union_r.
Qed.

Example empty_variable_hides_dotenv_value :
  server.port (server (config (dotenv_config (Some {[ "PORT" := "8080" ]})
                                 {[ "PORT" := "" ]})))
  = Num 3000.
Proof. vm_compute. reflexivity. Qed.

End ConfigMore.

(** ** More on the connection wrappers *)

Module WrapperMore.

Ltac run :=
  unfold Database.connect, Database.getClient, Database.query, Database.getPool,
    Database.disconnect, Database.require_pool,
    RedisClient.connect, RedisClient.getClient, RedisClient.set,
    RedisClient.get, RedisClient.del, RedisClient.exists_, RedisClient.expire,
    RedisClient.disconnect, RedisClient.require_client,
    RedisClient.log_and_rethrow,
    Eff.bind, Eff.get_this, Eff.set_this, Eff.throw, Eff.ret, Eff.read,
    Eff.try_catch, Eff.log, Eff.call;
  simpl.

(** Case analysis on the next library call. *)
Ltac next_call :=
  match goal with
  | |- context [let '(_, _) := ?f ?w in _] =>
      let r := fresh "r" in let w' := fresh "w" in let e := fresh "e" in
      destruct (f w) as [[r | e] w']; simpl
  end.

Section Database.
Context {World : Type} `{RT : Runtime World} `{PG : Pg.Api World}.
Variable config : Config.

Abbreviation DbState := (State World Database.Database).



(** X7: a [connect] that fails after the pool was created leaves the
    wrapper holding that pool: the field is not reset, the guard of the
    other methods no longer fires, and [getPool] returns the pool of the
    failed attempt. *)
Theorem failed_connect_keeps_pool (s s' : DbState) (p : Pg.Pool) (w : World)
    (e : Error) :
  Pg.Pool_new (Database.pool_options config) (world s) = (Normal p, w) ->
  Database.connect config s = (Throw e, s') ->
  Database.pool (this s') = Some p /\
  Database.getPool s' = (Normal p, s').
Proof.
  intros Hnew. run. rewrite Hnew. simpl.
  repeat next_call; intros [= <- <-]; split; reflexivity.
Qed.

(** X8: the life cycle.  After a [connect] that returned, a pool is held
    and [getPool] returns it; after a following [disconnect] that
    returned, [getPool] throws again. *)
Theorem connect_then_disconnect (s s1 : DbState) :
  Database.connect config s = (Normal tt, s1) ->
  exists p,
    Database.pool (this s1) = Some p /\
    Database.getPool s1 = (Normal p, s1) /\
    forall s2, Database.disconnect s1 = (Normal tt, s2) ->
               rejects Database.getPool s2
                 "Database pool not initialized. Call connect() first.".
Proof.
  intros Hc.
  assert (Hp : exists p, Database.pool (this s1) = Some p).
  { revert Hc. run. repeat next_call; intros [= <-]; eauto. }
  destruct Hp as [p Hp]. exists p. split; [exact Hp |]. split.
  - now apply WrapperFacts.require_pool_some.
  - intros s2 Hd. apply WrapperFacts.require_pool_none.
    eapply WrapperFacts.db_disconnect_returns; eauto.
Qed.

(** X9: a [disconnect] whose [pool.end()] throws rethrows that error,
    keeps the pool and logs nothing, so that the wrapper still counts as
    connected. *)
Theorem failed_disconnect_keeps_pool (s : DbState) (p : Pg.Pool) (w : World)
    (e : Error) :
  Database.pool (this s) = Some p ->
  Pg.Pool_end p (world s) = (Throw e, w) ->
  Database.disconnect s = (Throw e, mkState (this s) (logged s) w) /\
  Database.getPool (snd (Database.disconnect s))
  = (Normal p, snd (Database.disconnect s)).
Proof.
  intros Hp He.
  assert (Hd : Database.disconnect s = (Throw e, mkState (this s) (logged s) w)).
  { run. rewrite Hp. simpl. now rewrite He. }
  split; [exact Hd |]. rewrite Hd. simpl.
  now apply WrapperFacts.require_pool_some.
Qed.

End Database.

Section Redis.
Context {World : Type} `{RD : RedisLib.Api World}.
Variable config : Config.

Abbreviation RedisState := (State World RedisClient.RedisClient).

(** What a key operation of the Redis wrapper makes of the library call
    [f] it wraps: the value is passed through [post]; an error is logged
    with the key under the heading [what] and thrown again. *)
Lemma wrapped_call {A B : Type} (f : World -> completion A * World)
    (post : A -> B) (what key : string) (s : RedisState) :
  Eff.try_catch (Eff.bind (Eff.call f) (fun a => Eff.ret (post a)))
    (RedisClient.log_and_rethrow what key) s
  = match f (world s) with
    | (Normal a, w) => (Normal (post a), mkState (this s) (logged s) w)
    | (Throw e, w) =>
        (Throw e,
         mkState (this s)
           (Logger.mkEntry Logger.Error_ what
              (Logger.MetaObject
                 [("key", Logger.VString key); ("error", Logger.VError e)])
            :: logged s) w)
    end.
Proof. run. destruct (f (world s)) as [[a | e] w]; reflexivity. Qed.

Lemma wrapped_call_id {A : Type} (f : World -> completion A * World)
    (what key : string) (s : RedisState) :
  Eff.try_catch (Eff.call f) (RedisClient.log_and_rethrow what key) s
  = match f (world s) with
    | (Normal a, w) => (Normal a, mkState (this s) (logged s) w)
    | (Throw e, w) =>
        (Throw e,
         mkState (this s)
           (Logger.mkEntry Logger.Error_ what
              (Logger.MetaObject
                 [("key", Logger.VString key); ("error", Logger.VError e)])
            :: logged s) w)
    end.
Proof. run. destruct (f (world s)) as [[a | e] w]; reflexivity. Qed.

Lemma with_client {A : Type}
    (k : RedisLib.RedisClientType -> Eff World RedisClient.RedisClient A)
    (s : RedisState) (c : RedisLib.RedisClientType) :
  RedisClient.client (this s) = Some c ->
  Eff.bind RedisClient.require_client k s = k c s.
Proof. intros H. run. now rewrite H. Qed.

(** X10: which command [set] issues.  With a client held, a non-zero
    number of seconds makes it issue SETEX with that number; no
    expiration, 0 or NaN make it issue a plain SET, so that an expiration
    of 0 stores the key without expiry.  In both cases the outcome is the
    command's: [set] returns when it returns and throws what it throws. *)
Theorem set_chooses_command (key value : string)
    (expirationSeconds : option number) (s : RedisState)
    (c : RedisLib.RedisClientType) :
  RedisClient.client (this s) = Some c ->
  fst (RedisClient.set key value expirationSeconds s)
  = match expirationSeconds with
    | Some (Num z) =>
        if z =? 0 then fst (RedisLib.set c key value (world s))
        else fst (RedisLib.setEx c key (Num z) value (world s))
    | Some NaN | None => fst (RedisLib.set c key value (world s))
    end.
Proof.
  intros Hc. unfold RedisClient.set. rewrite (with_client _ _ _ Hc).
  destruct expirationSeconds as [[| z] |]; simpl;
    try destruct (Z.eqb_spec z 0); simpl;
    rewrite wrapped_call_id;
    match goal with |- context [match ?f ?w with _ => _ end] =>
      destruct (f w) as [[[] | err] w'] end; reflexivity.
Qed.

(** X11: the key operations are transparent.  With a client held, [get]
    returns what GET returns, [exists] returns true exactly when EXISTS
    returns 1, [del] and [expire] return without a value when DEL and
    EXPIRE return (their results are dropped); each throws the library's
    error unchanged after logging it once with the key, logs nothing on
    success, and never touches the client field. *)
Theorem key_operations_are_transparent (key : string) (seconds : number)
    (s : RedisState) (c : RedisLib.RedisClientType) :
  RedisClient.client (this s) = Some c ->
  let outcome {A B : Type} (what : string) (post : A -> B)
        (r : completion A * World) : completion B * RedisState :=
    match r with
    | (Normal a, w) => (Normal (post a), mkState (this s) (logged s) w)
    | (Throw e, w) =>
        (Throw e,
         mkState (this s)
           (Logger.mkEntry Logger.Error_ what
              (Logger.MetaObject
                 [("key", Logger.VString key); ("error", Logger.VError e)])
            :: logged s) w)
    end in
  RedisClient.get key s
  = outcome "Redis GET error:" (fun v => v) (RedisLib.get c key (world s)) /\
  RedisClient.del key s
  = outcome "Redis DEL error:" (fun _ => tt) (RedisLib.del c key (world s)) /\
  RedisClient.exists_ key s
  = outcome "Redis EXISTS error:" (fun n => n =? 1)
      (RedisLib.exists_ c key (world s)) /\
  RedisClient.expire key seconds s
  = outcome "Redis EXPIRE error:" (fun _ => tt)
      (RedisLib.expire c key seconds (world s)).
Proof.
  intros Hc. cbv zeta.
  unfold RedisClient.get, RedisClient.del, RedisClient.exists_, RedisClient.expire.
  rewrite !(with_client _ _ _ Hc).
  rewrite wrapped_call_id, !wrapped_call. repeat split.
Qed.


End Redis.

(** X13: the password handed to [createClient], in terms of the
    environment: it is present exactly when REDIS_PASSWORD is set to a
    non-empty string, and is then that string. *)
Theorem redis_password_only_when_set (env : gmap string string) :
  RedisLib.password (RedisClient.redisConfig (ConfigModule.config env))
  = match env !! "REDIS_PASSWORD" with
    | Some pw => if decide (pw = "") then None else Some pw
    | None => None
    end.
Proof.
  unfold RedisClient.redisConfig. simpl. unfold or_else.
  destruct (env !! "REDIS_PASSWORD") as [pw |]; [| reflexivity].
  destruct (String.eqb_spec pw "") as [-> | Hne].
  - reflexivity.
  - destruct (decide (pw = "")); [contradiction |].
    destruct (String.eqb_spec pw ""); [contradiction | reflexivity].
Qed.

Section Both.
Context {World : Type} `{RT : Runtime World} `{PG : Pg.Api World}
  `{RD : RedisLib.Api World}.

(** X14: only [connect] and [disconnect] change the handle.  Whatever the
    libraries do, and whether the call returns or throws, [getClient],
    [query] and [getPool] leave the pool field as it was, and the six
    operations of the Redis wrapper leave the client field as it was. *)
Theorem operations_keep_the_handle :
  (forall s : State World Database.Database,
     this (snd (Database.getClient s)) = this s /\
     (forall text params, this (snd (Database.query text params s)) = this s) /\
     this (snd (Database.getPool s)) = this s) /\
  (forall (s : State World RedisClient.RedisClient) key,
     this (snd (RedisClient.getClient s)) = this s /\
     (forall value expirationSeconds,
        this (snd (RedisClient.set key value expirationSeconds s)) = this s) /\
     this (snd (RedisClient.get key s)) = this s /\
     this (snd (RedisClient.del key s)) = this s /\
     this (snd (RedisClient.exists_ key s)) = this s /\
     (forall seconds, this (snd (RedisClient.expire key seconds s)) = this s)).
Proof.
  split.
  - intros s. repeat split; intros; run;
      destruct (Database.pool (this s)); simpl; try reflexivity;
      repeat next_call; reflexivity.
  - intros s key. repeat split; intros; run;
      destruct (RedisClient.client (this s)); simpl; try reflexivity;
      try match goal with
          | |- context [match ?x with Some _ => _ | None => _ end] =>
              destruct x as [secs |]; simpl; [destruct (RedisClient.truthy secs) |]
          end;
      repeat next_call; reflexivity.
Qed.

End Both.

(** *** Runs on the two simulated installations *)



Lemma failed_connect_keeps_pool_witness :
  Database.pool (this (snd (Database.connect (PG := Down.pg) (ConfigModule.config ∅)
                              (mkState Database.new [] 0%nat))))
  = Some Down.the_pool.
Proof.
  apply (failed_connect_keeps_pool (PG := Down.pg) (ConfigModule.config ∅)
           (mkState Database.new [] 0%nat) _ Down.the_pool 1%nat
           (new_Error "connect ECONNREFUSED 127.0.0.1:5432")).
  - reflexivity.
  - vm_compute. reflexivity.
Defined.

Lemma connect_then_disconnect_witness :
  exists p,
    Database.pool (this (snd (Database.connect (PG := Sim.pg) (ConfigModule.config ∅)
                                (mkState Database.new [] 0%nat)))) = Some p.
Proof.
  destruct (connect_then_disconnect (PG := Sim.pg) (ConfigModule.config ∅)
              (mkState Database.new [] 0%nat)
              (snd (Database.connect (PG := Sim.pg) (ConfigModule.config ∅)
                      (mkState Database.new [] 0%nat))))
    as (p & Hp & _).
  - vm_compute. reflexivity.
  - exists p. exact Hp.
Defined.

Lemma failed_disconnect_keeps_pool_witness :
  Database.disconnect (PG := Down.pg)
    (mkState {| Database.pool := Some Down.the_pool |} [] 0%nat)
  = (Throw (new_Error "Called end on pool more than once"),
     mkState {| Database.pool := Some Down.the_pool |} [] 1%nat).
Proof.
  apply (failed_disconnect_keeps_pool (PG := Down.pg)
           (mkState {| Database.pool := Some Down.the_pool |} [] 0%nat)
           Down.the_pool 1%nat (new_Error "Called end on pool more than once")).
  - reflexivity.
  - reflexivity.
Defined.

Lemma set_chooses_command_witness :
  fst (RedisClient.set (RD := Sim.redis) "session:42" "alice" (Some (Num 0))
         (mkState {| RedisClient.client := Some Sim.the_client |} [] 0%nat))
  = Normal tt.
Proof.
  rewrite (set_chooses_command (RD := Sim.redis) "session:42" "alice" (Some (Num 0))
             (mkState {| RedisClient.client := Some Sim.the_client |} [] 0%nat)
             Sim.the_client eq_refl).
  reflexivity.
Defined.

Lemma key_operations_are_transparent_witness :
  RedisClient.get (RD := Down.redis) "session:42"
    (mkState {| RedisClient.client := Some Down.the_client |} [] 0%nat)
  = (Throw (new_Error "The client is closed"),
     mkState {| RedisClient.client := Some Down.the_client |}
       [Logger.mkEntry Logger.Error_ "Redis GET error:"
          (Logger.MetaObject
             [("key", Logger.VString "session:42");
              ("error", Logger.VError (new_Error "The client is closed"))])]
       1%nat).
Proof.
  rewrite (proj1 (key_operations_are_transparent (RD := Down.redis) "session:42"
                    (Num 60)
                    (mkState {| RedisClient.client := Some Down.the_client |} [] 0%nat)
                    Down.the_client eq_refl)).
  reflexivity.
Defined.


End WrapperMore.

(** ** Start-up and shutdown *)

Module IndexFacts.
Import Index.

Ltac run :=
  unfold initialize, onServerClosed, on_database, on_redis,
    Database.connect, Database.disconnect,
    RedisClient.connect, RedisClient.disconnect,
    Eff.bind, Eff.get_this, Eff.set_this, Eff.throw, Eff.ret, Eff.read,
    Eff.try_catch, Eff.log, Eff.call;
  simpl.

Ltac next_call :=
  match goal with
  | |- context [let '(_, _) := ?f ?w in _] =>
      let r := fresh "r" in let w' := fresh "w" in let err := fresh "err" in
      destruct (f w) as [[r | err] w']; simpl
  end.

Section Index.
Context {World : Type} `{RT : Runtime World} `{PG : Pg.Api World}
  `{RD : RedisLib.Api World}.
Variable config : Config.

Abbreviation Self := (Singletons Database.Database RedisClient.RedisClient).
Abbreviation St := (State World Self).

(** X15: [initialize] never throws.  It ends in one of two ways: it
    returns with both the pool and the Redis client held, or it calls
    [process.exit(1)]. *)
Theorem initialize_outcome (s : St) :
  exists status s',
    initialize config s = (Normal status, s') /\
    ((status = Running /\
      (exists p, Database.pool (database (this s')) = Some p) /\
      (exists c, RedisClient.client (redis (this s')) = Some c)) \/
     status = Exited 1).
Proof.
  run. repeat next_call; eexists _, _; (split; [reflexivity |]);
    first [ right; reflexivity | left; simpl; eauto ].
Qed.

(** X16: when connecting to the database fails, Redis is never tried:
    [initialize] logs the failure and exits with code 1, the Redis
    singleton is as it was, and the outside world is as the database
    attempt left it. *)
Theorem database_failure_skips_redis (s : St)
    (sd : State World Database.Database) (e : Error) :
  Database.connect config
    (mkState (database (this s))
       (Logger.mkEntry Logger.Info "Connecting to database..." Logger.NoMeta
        :: logged s)
       (world s))
  = (Throw e, sd) ->
  initialize config s
  = (Normal (Exited 1),
     mkState (mkSingletons (this sd) (redis (this s)))
       (Logger.mkEntry Logger.Error_ "Failed to initialize application:"
          (Logger.MetaValue (Logger.VError e))
        :: logged sd)
       (world sd)).
Proof.
  intros Hdb. unfold initialize, Eff.try_catch, Eff.bind at 1, Eff.log at 1.
  unfold Eff.bind at 1, on_database at 1. simpl. rewrite Hdb. reflexivity.
Qed.

(** X17: the shutdown callback never throws and always ends the process:
    with code 0 only when both disconnects returned, in which case no
    pool and no client is held any more; with code 1 otherwise. *)
Theorem shutdown_outcome (s : St) :
  exists code s',
    onServerClosed s = (Normal (Exited code), s') /\
    ((code = 0 /\
      Database.pool (database (this s')) = None /\
      RedisClient.client (redis (this s')) = None) \/
     code = 1).
Proof.
  unfold onServerClosed, on_database, on_redis, Eff.try_catch, Eff.bind,
    Eff.log, Eff.ret. simpl.
  destruct (Database.disconnect _) as [[[] | e] sd] eqn:Ed; simpl.
  - destruct (RedisClient.disconnect _) as [[[] | e] sr] eqn:Er; simpl.
    + eexists _, _. split; [reflexivity |]. left. simpl.
      split; [reflexivity |]. split.
      * exact (WrapperFacts.db_disconnect_returns _ _ Ed).
      * exact (WrapperFacts.redis_disconnect_returns _ _ Er).
    + eexists _, _. split; [reflexivity |]. now right.
  - eexists _, _. split; [reflexivity |]. now right.
Qed.

(** X18: when closing the pool fails during shutdown, the Redis
    connection is not closed: the callback logs the error and exits with
    code 1, both singletons are as they were, and [quit] was not
    called. *)
Theorem failed_pool_end_leaves_redis_open (s : St) (p : Pg.Pool) (w : World)
    (e : Error) :
  Database.pool (database (this s)) = Some p ->
  Pg.Pool_end p (world s) = (Throw e, w) ->
  onServerClosed s
  = (Normal (Exited 1),
     mkState (mkSingletons (database (this s)) (redis (this s)))
       (Logger.mkEntry Logger.Error_ "Error during shutdown:"
          (Logger.MetaValue (Logger.VError e))
        :: Logger.mkEntry Logger.Info "HTTP server closed" Logger.NoMeta
        :: logged s)
       w).
Proof.
  intros Hp He. run. rewrite Hp. simpl. rewrite He. reflexivity.
Qed.

End Index.

Import Sim.

Example sim_initialize :
  let '(status, s') :=
    initialize (ConfigModule.config ∅)
      (fresh (mkSingletons Database.new RedisClient.new)) in
  status = Normal Running /\
  List.map Logger.text (logged s')
  = ["All connections established successfully";
     "Redis connection established successfully";
     "Connecting to Redis...";
     "Database connection pool established successfully";
     "Connecting to database..."].
Proof. vm_compute. split; reflexivity. Qed.

Lemma database_failure_skips_redis_witness :
  fst (initialize (PG := Down.pg) (RD := Down.redis) (ConfigModule.config ∅)
         (mkState (mkSingletons Database.new RedisClient.new) [] 0%nat))
  = Normal (Exited 1).
Proof.
  erewrite (database_failure_skips_redis (PG := Down.pg) (RD := Down.redis)
              (ConfigModule.config ∅)
              (mkState (mkSingletons Database.new RedisClient.new) [] 0%nat)).
  - reflexivity.
  - vm_compute. reflexivity.
Defined.

Lemma failed_pool_end_leaves_redis_open_witness :
  RedisClient.client
    (Index.redis (this (snd
       (onServerClosed (PG := Down.pg) (RD := Down.redis)
          (mkState (mkSingletons {| Database.pool := Some Down.the_pool |}
                      {| RedisClient.client := Some Down.the_client |})
             [] 0%nat)))))
  = Some Down.the_client.
Proof.
  rewrite (failed_pool_end_leaves_redis_open (PG := Down.pg) (RD := Down.redis)
             (mkState (mkSingletons {| Database.pool := Some Down.the_pool |}
                         {| RedisClient.client := Some Down.the_client |})
                [] 0%nat)
             Down.the_pool 1%nat (new_Error "Called end on pool more than once")
             eq_refl eq_refl).
  reflexivity.
Defined.

End IndexFacts.

(** ** More on the HTTP application *)

Module AppMore.
Import Express.

Section App.
Context {World : Type} `{RT : Runtime World} `{MW : Vendors.Middleware World}.
Variable config : Config.

Abbreviation St := (State World unit).



(** X20: the health route serves more than GET /health.  Any request that
    reaches the routes with method GET or HEAD and with path /health in
    any letter case, with or without a trailing slash, is answered 200
    with the health body. *)
Theorem health_route_serves_variants (req : Request) (s s' : St) :
  App.reaches_routes config req s s' ->
  (toLowerCase (method req) = "get" \/ toLowerCase (method req) = "head") ->
  (toLowerCase (path req) = "/health" \/ toLowerCase (path req) = "/health/") ->
  App.respond config req s
  = (Sent {| status := 200;
             body := Some (JObject
               [("status", JString "ok");
                ("timestamp", JString (Date_toISOString (world s')));
                ("uptime", JNumber (process_uptime (world s')))]) |},
     s').
Proof.
  intros Hreach Hm Hp.
  now rewrite (AppFacts.routed_requests_served config req s s' Hreach (conj Hm Hp)).
Qed.

End App.

Import Sim.

Example sim_preflight :
  App.respond (ConfigModule.config ∅) OPTIONS_users (fresh tt)
  = (Sent {| status := 204; body := None |}, fresh tt).
Proof. vm_compute. reflexivity. Qed.

Example sim_bad_body_log :
  List.map Logger.text
    (logged (snd (App.respond (ConfigModule.config ∅) GET_health_bad_body (fresh tt))))
  = ["Unhandled error:"].
Proof. vm_compute. reflexivity. Qed.

Lemma health_route_serves_variants_witness :
  exists s',
    App.respond (ConfigModule.config ∅) HEAD_Health_slash (fresh tt)
    = (Sent (App.health_response s'), s').
Proof.
  eexists.
  apply (health_route_serves_variants (ConfigModule.config ∅) HEAD_Health_slash
           (fresh tt)).
  - vm_compute. reflexivity.
  - right. reflexivity.
  - right. reflexivity.
Defined.

End AppMore.
